(** * Image captioning: sequence decoder and training orchestrator

    A shallow embedding of [lstm_model.py] (teacher-forced scoring and
    batched autoregressive generation), of [experiment.py] (resume,
    epoch loop, training, validation and test passes) and of
    [model_factory.py], with the properties of the design document
    stated and settled against it.

    Python lists are [list]s with Python's index checks written out,
    Python integers are [Z], exceptions are the [Raise] results of an
    error monad.  The tensor library is not part of the program: its
    layers are the fields of the class [LSTMModel], acting on one batch
    row at a time, its floating point numbers are an abstract type, and
    the checks it makes on the type and the shape of a tensor are
    written out where the program depends on them. *)

From Stdlib Require Import ZArith Lia.
From Stdlib Require QArith.
From stdpp Require Import base option list strings gmap.

Open Scope string_scope.

(** ** Python exceptions and the error monad *)

Inductive exn : Type :=
| IndexError
| ZeroDivisionError
| TypeError
| ValueError
| RuntimeError
| FileNotFoundError
| FileExistsError
| UnpicklingError
| Exception
| Diverged.  (* a loop that ran out of fuel: never a Python exception *)

Inductive result (A : Type) : Type :=
| Ok (a : A)
| Raise (e : exn).
Arguments Ok {A} a.
Arguments Raise {A} e.

#[global] Instance result_ret : MRet result := fun A a => Ok a.
#[global] Instance result_bind : MBind result := fun A B f m =>
  match m with
  | Ok a => f a
  | Raise e => Raise e
  end.

(** [l[i]] with Python's negative indices and its IndexError. *)
Definition py_index {A} (l : list A) (i : Z) : result nat :=
  let n := Z.of_nat (length l) in
  let j := if (i <? 0)%Z then (i + n)%Z else i in
  if ((0 <=? j) && (j <? n))%Z then Ok (Z.to_nat j) else Raise IndexError.

Definition py_getitem {A} (l : list A) (i : Z) : result A :=
  j ← py_index l i;
  match l !! j with
  | Some x => Ok x
  | None => Raise IndexError
  end.

(** [l[i] = x] *)
Definition py_setitem {A} (l : list A) (i : Z) (x : A) : result (list A) :=
  j ← py_index l i;
  Ok (<[j := x]> l).

(** [for i in range(n): s = body(s, i)] *)
Fixpoint for_each {S I} (body : S → I → result S) (s : S) (l : list I) : result S :=
  match l with
  | [] => Ok s
  | i :: l' => s' ← body s i; for_each body s' l'
  end.

(** [[f(x) for x in l]] where [f] may raise *)
Fixpoint comprehension {A B} (f : A → result B) (l : list A) : result (list B) :=
  match l with
  | [] => Ok []
  | x :: l' => y ← f x; ys ← comprehension f l'; Ok (y :: ys)
  end.

(** ** The model object *)

(** The fields of an [LSTMModel] instance and the tensor functions its
    methods call.  Every layer acts on the rows of a batch independently
    ([batch_first=True]), so each is given on one row.  [embedding] is
    the row of the weight matrix of [nn.Embedding] at an index,
    [lstm_state] the pair (hidden_states, cell_states) of one example,
    [decoder] one time step of [nn.LSTM]. *)
Class LSTMModel : Type := {
  image : Type;
  emb : Type;
  hidden : Type;
  lstm_state : Type;
  float : Type;
  generator : Type;
  vocab_size : nat;                           (* len(vocab) *)
  vocab_idx2word : Z → string;                (* self.vocab.idx2word[idx] *)
  vocab_call : string → Z;                    (* self.vocab(word) *)
  resnet_fc : image → emb;                    (* resnetfc(resnet(image)), one image *)
  embedding : Z → emb;
  zeros : lstm_state;                         (* torch.zeros(...) *)
  decoder : emb → lstm_state → hidden * lstm_state;
  hidden2output : hidden → list float;
  log_softmax : list float → list float;
  softmax : list float → list float;
  float_div : float → float → float;
  float_lt : float → float → bool;
  categorical_sample : list float → generator → Z * generator;
}.

Record GenerationConfig {float : Type} : Type := {
  max_length : Z;
  deterministic : bool;
  temperature : float;
}.
Arguments GenerationConfig float : clear implicits.

Section lstm_model.
Context `{M : LSTMModel}.

(** The image features as [squeeze_()] leaves them.  The convolutional
    part yields a tensor of shape (N, 2048, 1, 1) and [squeeze_()],
    called without a dimension, removes every dimension of size 1: the
    batch dimension too when N = 1. *)
Inductive features : Type :=
| Batch (rows : list emb)   (* (N, embedding_size) *)
| Single (row : emb).       (* (embedding_size) *)

(** [self.resnetfc(self.resnet(images).squeeze_())] *)
Definition encode (images : list image) : features :=
  match images with
  | [img] => Single (resnet_fc img)
  | _ => Batch (map resnet_fc images)
  end.

(** What [self.word_embedder] is called on: a tensor of token indices,
    (N, L), in [forward] and in the later steps of [generate]; the image
    features, a tensor of floating point numbers, at step 0 of
    [generate]. *)
Inductive embed_arg : Type :=
| Indices (idx : list (list Z))
| Floats (f : features).

(** The tokens the embedding layer has a row for. *)
Definition in_vocab (i : Z) : Prop := (0 ≤ i < Z.of_nat vocab_size)%Z.

Definition embed_index (i : Z) : result emb :=
  if ((0 <=? i) && (i <? Z.of_nat vocab_size))%Z then Ok (embedding i)
  else Raise IndexError.

(** [nn.Embedding.forward]: a table lookup, defined on integer indices
    within the table.  A tensor of floating point numbers is refused
    with a RuntimeError, whatever its shape. *)
Definition word_embedder (a : embed_arg) : result (list (list emb)) :=
  match a with
  | Indices idx => comprehension (comprehension embed_index) idx
  | Floats _ => Raise RuntimeError
  end.

(** [tensor.max(dim=1)] on one row: the index of the maximum, the first
    one among equals (the running best is replaced on a strictly larger
    value only). *)
Fixpoint max_from (best_i : nat) (best : float) (i : nat) (row : list float) : nat :=
  match row with
  | [] => best_i
  | x :: row' =>
      if float_lt best x then max_from i x (S i) row' else max_from best_i best (S i) row'
  end.

Definition max_index (row : list float) : Z :=
  match row with
  | [] => 0
  | x :: row' => Z.of_nat (max_from 0 x 1 row')
  end.

(** [nn.LSTM] over the sequence of one example, from the state [s]:
    the outputs of the steps, and with [decoder_run] the state after the
    last step as well. *)
Fixpoint decoder_seq (inputs : list emb) (s : lstm_state) : list hidden :=
  match inputs with
  | [] => []
  | x :: inputs' => let '(h, s') := decoder x s in h :: decoder_seq inputs' s'
  end.

Fixpoint decoder_run (inputs : list emb) (s : lstm_state) : list hidden * lstm_state :=
  match inputs with
  | [] => ([], s)
  | x :: inputs' =>
      let '(h, s') := decoder x s in
      let '(hs, s'') := decoder_run inputs' s' in
      (h :: hs, s'')
  end.

(** [captions[:, :-1]] on one row *)
Definition drop_last {A} (l : list A) : list A := take (length l - 1) l.

(** [output.permute(0, 2, 1)] on one example: (seq len, vocab size)
    becomes (vocab size, seq len). *)
Fixpoint permute (vocab_size : nat) (rows : list (list float)) : list (list float) :=
  match rows with
  | [] => replicate vocab_size []
  | r :: rows' => zip_with cons r (permute vocab_size rows')
  end.

(** [torch.cat((features.unsqueeze(dim=1), embedded), dim=1)].  The
    features of a batch become (N, 1, embedding_size) and go in front
    of the (N, L - 1, embedding_size) embeddings, row by row; features
    that lost their batch dimension become a tensor of two dimensions,
    which cannot be concatenated with one of three. *)
Definition cat_features (f : features) (embedded : list (list emb))
  : result (list (list emb)) :=
  match f with
  | Single _ => Raise RuntimeError
  | Batch rows =>
      if decide (length rows = length embedded) then Ok (zip_with cons rows embedded)
      else Raise RuntimeError
  end.

(** [forward]: a batch of images and the tensor (N, L) of their target
    captions, every row of the same length. *)
Definition forward (images : list image) (captions : list (list Z))
  : result (list (list (list float))) :=
  let features := encode images in
  embedded ← word_embedder (Indices (map drop_last captions));
  embedded ← cat_features features embedded;
  let final_hiddens := map (fun inputs => decoder_seq inputs zeros) embedded in
  let output := map (map hidden2output) final_hiddens in
  Ok (map (permute vocab_size) output).

(** The input sequence of the decoder in [forward] for one example of a
    batch, and its (seq len, vocab size) logits before [permute]. *)
Definition forward_embedded (img : image) (caption : list Z) : list emb :=
  let features := resnet_fc img in
  let embedded := map embedding (drop_last caption) in
  [features] ++ embedded.

Definition forward_logits (img : image) (caption : list Z) : list (list float) :=
  let final_hiddens := decoder_seq (forward_embedded img caption) zeros in
  map hidden2output final_hiddens.

(** *** generate *)

Record gen_state : Type := GenState {
  iter : Z;
  num_complete : Z;
  captions : list (list string);
  keep_generating : list bool;
  hidden_states : list lstm_state;
  rng : generator;
}.

(** [["<pad>"] * (max_len + 1) for i in range(batch_size)], then
    [captions[i][0] = "<start>"] for every row. *)
Definition set_start (caps : list (list string)) (i : nat) : result (list (list string)) :=
  row ← py_getitem caps (Z.of_nat i);
  row' ← py_setitem row 0 "<start>";
  Ok (<[i := row']> caps).

Definition init_captions (batch_size : nat) (max_len : Z) : result (list (list string)) :=
  let caps := replicate batch_size (replicate (Z.to_nat (max_len + 1)) "<pad>") in
  for_each set_start caps (seq 0 batch_size).

Definition init_state (batch_size : nat) (max_len : Z) (g : generator) : result gen_state :=
  caps ← init_captions batch_size max_len;
  Ok {| iter := 0; num_complete := 0; captions := caps;
        keep_generating := replicate batch_size true;
        hidden_states := replicate batch_size zeros;
        rng := g |}.

Definition loop_cond (batch_size : nat) (max_len : Z) (st : gen_state) : bool :=
  ((iter st <? max_len + 1) && (num_complete st <? Z.of_nat batch_size))%Z.

(** The decoder input of the step, (N, 1, embedding_size): at step 0
    the image features are handed to the embedding layer, later on the
    indices of the words at position [iter - 1] of the buffers. *)
Definition step_embedded (images : list image) (st : gen_state) : result (list (list emb)) :=
  if (iter st =? 0)%Z then
    let features := encode images in
    word_embedder (Floats features)
  else
    last_words ←
      comprehension (fun ls => w ← py_getitem ls (iter st - 1)%Z; Ok [vocab_call w])
                    (captions st);
    word_embedder (Indices last_words).

(** [Categorical(softmax).sample()], row after row. *)
Fixpoint sample_rows (rows : list (list float)) (g : generator) : list Z * generator :=
  match rows with
  | [] => ([], g)
  | r :: rows' =>
      let '(i, g') := categorical_sample r g in
      let '(rest, g'') := sample_rows rows' g' in
      (i :: rest, g'')
  end.

Definition select_indices (config : GenerationConfig float) (output : list (list float))
    (g : generator) : list Z * generator :=
  if deterministic config then
    (map (fun row => max_index (log_softmax row)) output, g)
  else
    sample_rows
      (map (fun row => softmax (map (fun x => float_div x (temperature config)) row)) output) g.

(** Everything of one iteration up to the token choice: the indices
    chosen for the batch, the new recurrent state and the generator.
    The decoder input holds one step per example, so that
    [squeeze(dim=1)] leaves the logits of that step. *)
Definition step_indices (images : list image) (config : GenerationConfig float)
    (st : gen_state) : result (list Z * list lstm_state * generator) :=
  embedded ← step_embedded images st;
  let out := zip_with decoder_run embedded (hidden_states st) in
  let output := map (fun hs => concat (map hidden2output hs.1)) out in
  let '(indices, g) := select_indices config output (rng st) in
  Ok (indices, out.*2, g).

(** The body of [for i in range(batch_size)] that records the words. *)
Definition record_word (it : Z) (indices : list Z)
    (acc : list (list string) * list bool * Z) (i : nat)
  : result (list (list string) * list bool * Z) :=
  let '(caps, keep, done) := acc in
  k ← py_getitem keep (Z.of_nat i);
  if k : bool then
    word_idx ← py_getitem indices (Z.of_nat i);
    let word := vocab_idx2word word_idx in
    row ← py_getitem caps (Z.of_nat i);
    row' ← py_setitem row it word;
    let caps' := <[i := row']> caps in
    if decide (vocab_idx2word word_idx = "<end>") then
      keep' ← py_setitem keep (Z.of_nat i) false;
      Ok (caps', keep', (done + 1)%Z)
    else Ok (caps', keep, done)
  else Ok acc.

Definition loop_body (images : list image) (config : GenerationConfig float)
    (st : gen_state) : result gen_state :=
  '(indices, states, g) ← step_indices images config st;
  '(caps, keep, done) ←
    for_each (record_word (iter st) indices)
             (captions st, keep_generating st, num_complete st)
             (seq 0 (length images));
  Ok {| iter := iter st + 1; num_complete := done; captions := caps;
        keep_generating := keep; hidden_states := states; rng := g |}.

(** [while iter < max_len + 1 and num_complete < batch_size: ...] *)
Fixpoint while_loop (fuel : nat) (images : list image) (config : GenerationConfig float)
    (st : gen_state) : result gen_state :=
  if loop_cond (length images) (max_length config) st then
    match fuel with
    | O => Raise Diverged
    | S fuel' => st' ← loop_body images config st; while_loop fuel' images config st'
    end
  else Ok st.

(** The state after exactly [n] iterations, when the loop gets that far. *)
Fixpoint iterations (n : nat) (images : list image) (config : GenerationConfig float)
    (st : gen_state) : option gen_state :=
  match n with
  | O => Some st
  | S n' =>
      if loop_cond (length images) (max_length config) st then
        match loop_body images config st with
        | Ok st' => iterations n' images config st'
        | Raise _ => None
        end
      else None
  end.

(** [[word for word in ls if word != "<start>" and word != "<end>" and word != "<pad>"]] *)
Definition cleanup (ls : list string) : list string :=
  filter (fun word => word ≠ "<start>" ∧ word ≠ "<end>" ∧ word ≠ "<pad>") ls.

Definition generate_final (images : list image) (config : GenerationConfig float)
    (g : generator) : result gen_state :=
  st ← init_state (length images) (max_length config) g;
  while_loop (Z.to_nat (max_length config + 1)) images config st.

Definition generate (images : list image) (config : GenerationConfig float)
    (g : generator) : result (list (list string)) :=
  st ← generate_final images config g;
  Ok (map cleanup (captions st)).

End lstm_model.

(** ** experiment.py *)

(** What the orchestrator leaves outside the process: the directories
    and files under the statistics directory, and the optimizer steps
    it takes. *)
Inductive event : Type :=
| OptimizerStep (batch_size : nat). (* self.__optimizer.step() *)

Inductive file (scalar state_dict optim_dict : Type) : Type :=
| Numbers (l : list scalar)                     (* a JSON list of losses *)
| Checkpoint (m : state_dict) (o : optim_dict)  (* {'model': m, 'optimizer': o} *)
| Text (lines : list string)
| Figure (train val : list scalar).
Arguments Numbers {scalar state_dict optim_dict} l.
Arguments Checkpoint {scalar state_dict optim_dict} m o.
Arguments Text {scalar state_dict optim_dict} lines.
Arguments Figure {scalar state_dict optim_dict} train val.

(** The collaborators of [Experiment]: the model built by [get_model]
    (of [base_model], which is not among the sources) with its
    [generate], the loss, the optimizer, the BLEU scores of
    [caption_utils] against the reference captions of an image id,
    Python's float arithmetic and the constant [ROOT_STATS_DIR] of
    [utils.constants]. *)
Class ExperimentEnv : Type := {
  scalar : Type;
  picture : Type;
  state_dict : Type;
  optim_dict : Type;
  ROOT_STATS_DIR : string;
  scalar_zero : scalar;                                  (* training_loss = 0 *)
  scalar_minus_one : scalar;                             (* max_bleu = -1 *)
  scalar_add : scalar → scalar → scalar;
  scalar_div : scalar → Z → scalar;
  scalar_lt : scalar → scalar → bool;
  (* criterion(model(images, captions), captions).item() *)
  batch_loss : state_dict → list picture → list (list Z) → scalar;
  (* zero_grad(); loss.backward(); optimizer.step() *)
  optimizer_step : state_dict → optim_dict → list picture → list (list Z)
                   → state_dict * optim_dict;
  (* self.__model.generate(images, self.__generation_config) *)
  model_generate : state_dict → list picture → result (list (list string));
  bleu1 : Z → list string → scalar;
  bleu4 : Z → list string → scalar;
  summary_str : Z → scalar → scalar → string;
  test_result_str : scalar → scalar → scalar → string;
}.

Module experiment.
Section experiment.
Context `{Env : ExperimentEnv}.

Record world : Type := {
  dirs : gset string;
  files : gmap string (file scalar state_dict optim_dict);
  trace : list event;
}.

Record batch : Type := {
  images : list picture;
  captions : list (list Z);
  img_ids : list Z;
}.

(** The fields of [config_data] that [Experiment] reads. *)
Record config_data : Type := {
  experiment_name : string;
  num_epochs : Z;
  config_save : bool;
  config_load : bool;
}.

Record Experiment : Type := {
  name : string;
  experiment_dir : string;
  train_loader : list batch;
  val_loader : list batch;
  test_loader : list batch;
  epochs : Z;
  current_epoch : Z;
  training_losses : list scalar;
  val_losses : list scalar;
  save : bool;
  load : bool;
  model : state_dict;
  optimizer : optim_dict;
  example_img : option picture;
}.

Definition with_current_epoch (self : Experiment) (epoch : Z) : Experiment :=
  {| name := name self; experiment_dir := experiment_dir self;
     train_loader := train_loader self; val_loader := val_loader self;
     test_loader := test_loader self;
     epochs := epochs self; current_epoch := epoch;
     training_losses := training_losses self; val_losses := val_losses self;
     save := save self; load := load self;
     model := model self; optimizer := optimizer self;
     example_img := example_img self |}.

Definition with_losses (self : Experiment) (tl vl : list scalar) : Experiment :=
  {| name := name self; experiment_dir := experiment_dir self;
     train_loader := train_loader self; val_loader := val_loader self;
     test_loader := test_loader self;
     epochs := epochs self; current_epoch := current_epoch self;
     training_losses := tl; val_losses := vl;
     save := save self; load := load self;
     model := model self; optimizer := optimizer self;
     example_img := example_img self |}.

Definition with_model (self : Experiment) (m : state_dict) (o : optim_dict) : Experiment :=
  {| name := name self; experiment_dir := experiment_dir self;
     train_loader := train_loader self; val_loader := val_loader self;
     test_loader := test_loader self;
     epochs := epochs self; current_epoch := current_epoch self;
     training_losses := training_losses self; val_losses := val_losses self;
     save := save self; load := load self;
     model := m; optimizer := o;
     example_img := example_img self |}.

Definition with_example_img (self : Experiment) (img : picture) : Experiment :=
  {| name := name self; experiment_dir := experiment_dir self;
     train_loader := train_loader self; val_loader := val_loader self;
     test_loader := test_loader self;
     epochs := epochs self; current_epoch := current_epoch self;
     training_losses := training_losses self; val_losses := val_losses self;
     save := save self; load := load self;
     model := model self; optimizer := optimizer self;
     example_img := Some img |}.

(** *** The file system calls *)

Definition ends_with_slash (a : string) : bool :=
  bool_decide (String.substring (String.length a - 1) 1 a = "/").

(** [os.path.join(a, b)] *)
Definition path_join (a b : string) : string :=
  if String.prefix "/" b then b
  else if decide (a = "") then b
  else if ends_with_slash a then a +:+ b
  else a +:+ "/" +:+ b.

(** [os.path.exists(p)] *)
Definition path_exists (w : world) (p : string) : bool :=
  bool_decide (p ∈ dirs w) || bool_decide (is_Some (files w !! p)).

(** [os.makedirs(p, exist_ok=exist_ok)]; parent directories are not
    tracked. *)
Definition makedirs (p : string) (exist_ok : bool) (w : world) : result world :=
  if bool_decide (p ∈ dirs w) then
    if exist_ok then Ok w else Raise FileExistsError
  else if bool_decide (is_Some (files w !! p)) then Raise FileExistsError
  else Ok {| dirs := {[p]} ∪ dirs w; files := files w; trace := trace w |}.

(** Modelled from the spec: [read_file_in_dir] of [utils.file_utils] is
    not among the sources.  The persisted statistics are "two ordered
    numeric lists (training loss, validation loss), one entry per
    completed epoch": reading one gives the list that was written;
    a file that is not there or holds something else cannot be read. *)
Definition read_file_in_dir (w : world) (root_dir file_name : string) : result (list scalar) :=
  match files w !! path_join root_dir file_name with
  | Some (Numbers l) => Ok l
  | _ => Raise FileNotFoundError
  end.

(** Modelled from the spec: [write_to_file_in_dir] of [utils.file_utils]
    is not among the sources.  The loss histories are "persisted to
    stable storage after every epoch when persistence is enabled": the
    file is replaced by the list given. *)
Definition write_to_file_in_dir (root_dir file_name : string) (data : list scalar)
    (w : world) : world :=
  {| dirs := dirs w;
     files := <[path_join root_dir file_name := Numbers data]> (files w);
     trace := trace w |}.

(** Modelled from the spec: [log_to_file_in_dir] of [utils.file_utils]
    is not among the sources.  The log is "a plain-text append-only log
    of per-epoch summaries and test results": a line is added at the
    end of the file. *)
Definition log_to_file_in_dir (root_dir file_name : string) (log_str : string)
    (w : world) : world :=
  let path := path_join root_dir file_name in
  let old := match files w !! path with Some (Text lines) => lines | _ => [] end in
  {| dirs := dirs w;
     files := <[path := Text (old ++ [log_str])]> (files w);
     trace := trace w |}.

(** [torch.load(path)] followed by the lookups of 'model' and
    'optimizer'. *)
Definition torch_load (w : world) (path : string) : result (state_dict * optim_dict) :=
  match files w !! path with
  | Some (Checkpoint m o) => Ok (m, o)
  | Some _ => Raise UnpicklingError
  | None => Raise FileNotFoundError
  end.

(** [torch.save(state_dict, os.path.join(dir, file_name))]: the file is
    created in [dir], and the writer refuses a path whose parent
    directory does not exist. *)
Definition torch_save (m : state_dict) (o : optim_dict) (dir file_name : string)
    (w : world) : result world :=
  if bool_decide (dir ∈ dirs w) then
    Ok {| dirs := dirs w;
          files := <[path_join dir file_name := Checkpoint m o]> (files w);
          trace := trace w |}
  else Raise RuntimeError.

Definition emit (e : event) (w : world) : world :=
  {| dirs := dirs w; files := files w; trace := trace w ++ [e] |}.

(** *** Construction and resume *)

Definition load_experiment (self : Experiment) (w : world) : result (Experiment * world) :=
  w ← makedirs ROOT_STATS_DIR true w;
  if path_exists w (experiment_dir self) && load self then
    tl ← read_file_in_dir w (experiment_dir self) "training_losses.txt";
    vl ← read_file_in_dir w (experiment_dir self) "val_losses.txt";
    let self := with_losses self tl vl in
    let self := with_current_epoch self (Z.of_nat (length (training_losses self))) in
    '(m, o) ← torch_load w (path_join (experiment_dir self) "latest_model.pt");
    Ok (with_model self m o, w)
  else
    w ← makedirs (experiment_dir self) false w;
    Ok (self, w).

(** [Experiment.__init__], from the configuration read from the file
    ([None] when there is none), the loaders of [get_datasets] and the
    model and optimizer as built. *)
Definition init (config : option config_data) (train val test : list batch)
    (m : state_dict) (o : optim_dict) (w : world) : result (Experiment * world) :=
  match config with
  | None => Raise Exception
  | Some config_data =>
      let self := {| name := experiment_name config_data;
                     experiment_dir := ROOT_STATS_DIR;
                     train_loader := train; val_loader := val; test_loader := test;
                     epochs := num_epochs config_data;
                     current_epoch := 0;
                     training_losses := []; val_losses := [];
                     save := config_save config_data; load := config_load config_data;
                     model := m; optimizer := o;
                     example_img := None |} in
      if load self then load_experiment self w else Ok (self, w)
  end.

(** [generate_example_caption]: with an example image on record, the
    model generates for the batch that holds this image alone, and the
    first caption is printed. *)
Definition generate_example_caption (self : Experiment) : result () :=
  match example_img self with
  | Some img =>
      generated_captions ← model_generate (model self) [img];
      _ ← py_getitem generated_captions 0;
      Ok ()
  | None => Ok ()
  end.

(** The model generates a caption for every batch of one image,
    whatever its parameters. *)
Definition generates_examples : Prop :=
  ∀ (m : state_dict) (img : picture), ∃ c cs, model_generate m [img] = Ok (c :: cs).

(** *** The passes of one epoch *)

(** One batch of the training loader.  The first image met becomes
    the example image; [show_image], which displays it, is left out. *)
Definition train_batch (acc : Experiment * world * scalar) (b : batch)
  : result (Experiment * world * scalar) :=
  let '(self, w, training_loss) := acc in
  self ← match example_img self with
         | None => img ← py_getitem (images b) 0; Ok (with_example_img self img)
         | Some _ => Ok self
         end;
  let loss := batch_loss (model self) (images b) (captions b) in
  let training_loss := scalar_add training_loss loss in
  let '(m, o) := optimizer_step (model self) (optimizer self) (images b) (captions b) in
  Ok (with_model self m o, emit (OptimizerStep (length (images b))) w, training_loss).

Definition train (self : Experiment) (w : world) (epoch : Z)
  : result (Experiment * world * scalar) :=
  '(self, w, training_loss) ← for_each train_batch (self, w, scalar_zero) (train_loader self);
  if decide (length (train_loader self) = 0) then Raise ZeroDivisionError
  else Ok (self, w, scalar_div training_loss (Z.of_nat (length (train_loader self)))).

Definition val (self : Experiment) (epoch : Z) : result scalar :=
  let val_loss :=
    foldl (fun acc b => scalar_add acc (batch_loss (model self) (images b) (captions b)))
          scalar_zero (val_loader self) in
  if decide (length (val_loader self) = 0) then Raise ZeroDivisionError
  else Ok (scalar_div val_loss (Z.of_nat (length (val_loader self)))).

Definition record_stats (self : Experiment) (w : world) (train_loss val_loss : scalar)
  : Experiment * world :=
  let self := with_losses self (training_losses self ++ [train_loss])
                               (val_losses self ++ [val_loss]) in
  if save self then
    let w := write_to_file_in_dir (experiment_dir self) "training_losses.txt"
                                  (training_losses self) w in
    let w := write_to_file_in_dir (experiment_dir self) "val_losses.txt"
                                  (val_losses self) w in
    (self, w)
  else (self, w).

Definition log (self : Experiment) (log_str : string) (file_name : option string)
    (w : world) : world :=
  if save self then
    let w := log_to_file_in_dir (experiment_dir self) "all.log" log_str w in
    match file_name with
    | Some f => log_to_file_in_dir (experiment_dir self) f log_str w
    | None => w
    end
  else w.

Definition log_epoch_stats (self : Experiment) (w : world) : result world :=
  train_loss ← py_getitem (training_losses self) (current_epoch self);
  val_loss ← py_getitem (val_losses self) (current_epoch self);
  let summary := summary_str (current_epoch self + 1) train_loss val_loss in
  Ok (log self summary (Some "epoch.log") w).

Definition save_model (self : Experiment) (w : world) : result world :=
  if save self then
    torch_save (model self) (optimizer self) (experiment_dir self) "latest_model.pt" w
  else Ok w.

(** [plot_stats]: both histories are plotted against
    [1 .. len(training_losses)], which [plt.plot] refuses with a
    ValueError for a validation history of another length; with [save]
    the figure is written into the experiment directory, which has to
    exist. *)
Definition plot_stats (self : Experiment) (save_fig : bool) (w : world) : result world :=
  if decide (length (val_losses self) = length (training_losses self)) then
    if save self && save_fig then
      if bool_decide (experiment_dir self ∈ dirs w) then
        Ok {| dirs := dirs w;
              files := <[path_join (experiment_dir self) "stat_plot.png" :=
                           Figure (training_losses self) (val_losses self)]> (files w);
              trace := trace w |}
      else Raise FileNotFoundError
    else Ok w
  else Raise ValueError.

(** *** The test pass *)

(** One example of a test batch: its BLEU scores are added to the
    totals of the batch, and the best BLEU-1 score so far and its index
    are kept. *)
Definition bleu_example (generated_captions : list (list string)) (ids : list Z)
    (acc : scalar * scalar * Z * scalar * Z) (i : nat)
  : result (scalar * scalar * Z * scalar * Z) :=
  let '(total_bleu1, total_bleu4, num_bleu, max_bleu, max_idx) := acc in
  img_id ← py_getitem ids (Z.of_nat i);
  generated ← py_getitem generated_captions (Z.of_nat i);
  let ex_bleu1 := bleu1 img_id generated in
  let '(max_bleu, max_idx) :=
    if scalar_lt max_bleu ex_bleu1 then (ex_bleu1, Z.of_nat i) else (max_bleu, max_idx) in
  Ok (scalar_add total_bleu1 ex_bleu1, scalar_add total_bleu4 (bleu4 img_id generated),
      (num_bleu + 1)%Z, max_bleu, max_idx).

(** One batch of the test loader, [iter] being its index.  Every tenth
    batch, the first one included, the best example is shown and its
    caption is handed to [tqdm.write], which writes strings: the
    caption is a list of words and the call raises a TypeError. *)
Definition test_batch (self : Experiment) (acc : scalar * scalar * scalar)
    (ib : nat * batch) : result (scalar * scalar * scalar) :=
  let '(test_loss, bleu1_sum, bleu4_sum) := acc in
  let '(iter, b) := ib in
  let loss := batch_loss (model self) (images b) (captions b) in
  let test_loss := scalar_add test_loss loss in
  generated_captions ← model_generate (model self) (images b);
  '(total_bleu1, total_bleu4, num_bleu, max_bleu, max_idx) ←
    for_each (bleu_example generated_captions (img_ids b))
             (scalar_zero, scalar_zero, 0%Z, scalar_minus_one, (-1)%Z)
             (seq 0 (length (captions b)));
  _ ← (if (Z.of_nat iter `mod` 10 =? 0)%Z then
         _ ← py_getitem (images b) max_idx;
         _ ← py_getitem generated_captions max_idx;
         Raise TypeError
       else Ok ());
  if (num_bleu =? 0)%Z then Raise ZeroDivisionError
  else Ok (test_loss,
           scalar_add bleu1_sum (scalar_div total_bleu1 num_bleu),
           scalar_add bleu4_sum (scalar_div total_bleu4 num_bleu)).

Definition test (self : Experiment) (w : world) : result world :=
  '(test_loss, bleu1_sum, bleu4_sum) ←
    for_each (test_batch self) (scalar_zero, scalar_zero, scalar_zero)
             (imap pair (test_loader self));
  if decide (length (test_loader self) = 0) then Raise ZeroDivisionError
  else
    let n := Z.of_nat (length (test_loader self)) in
    let result_str :=
      test_result_str (scalar_div test_loss n) (scalar_div bleu1_sum n)
                      (scalar_div bleu4_sum n) in
    Ok (log self result_str None w).

(** *** The epoch loop *)

(** [epoch % 10 == 0 and epoch != start_epoch] *)
Definition test_due (start_epoch epoch : Z) : bool :=
  ((epoch `mod` 10 =? 0) && negb (epoch =? start_epoch))%Z.

(** What an epoch does after the example caption and the test pass:
    the lines from [self.__current_epoch = epoch] to
    [self.plot_stats()]. *)
Definition epoch_body (self : Experiment) (w : world) (epoch : Z)
  : result (Experiment * world) :=
  let self := with_current_epoch self epoch in
  '(self, w, train_loss) ← train self w epoch;
  val_loss ← val self epoch;
  let '(self, w) := record_stats self w train_loss val_loss in
  w ← log_epoch_stats self w;
  w ← save_model self w;
  w ← plot_stats self true w;
  Ok (self, w).

(** One iteration of the loop of [run]. *)
Definition run_epoch (start_epoch : Z) (st : Experiment * world) (epoch : Z)
  : result (Experiment * world) :=
  let '(self, w) := st in
  _ ← generate_example_caption self;
  w ← (if test_due start_epoch epoch then test self w else Ok w);
  epoch_body self w epoch.

(** [range(start_epoch, self.__epochs)] *)
Definition epoch_range (self : Experiment) : list Z :=
  seqZ (current_epoch self) (epochs self - current_epoch self).

(** The first [k] iterations of the loop of [run]. *)
Definition run_epochs (k : nat) (self : Experiment) (w : world) : result (Experiment * world) :=
  for_each (run_epoch (current_epoch self)) (self, w) (take k (epoch_range self)).

Definition run (self : Experiment) (w : world) : result (Experiment * world) :=
  '(self, w) ← for_each (run_epoch (current_epoch self)) (self, w) (epoch_range self);
  w ← plot_stats self true w;
  Ok (self, w).

(** The numbers of a training pass, without the bookkeeping around
    them: the loss of each batch, measured on the parameters as they
    are before the step on that batch, and the parameters and optimizer
    state after the last step. *)
Fixpoint train_trajectory (m : state_dict) (o : optim_dict) (bs : list batch)
  : list scalar * state_dict * optim_dict :=
  match bs with
  | [] => ([], m, o)
  | b :: bs' =>
      let loss := batch_loss m (images b) (captions b) in
      let '(m', o') := optimizer_step m o (images b) (captions b) in
      let '(losses, m_end, o_end) := train_trajectory m' o' bs' in
      (loss :: losses, m_end, o_end)
  end.

(** What no method changes once the experiment is constructed. *)
Definition same_setup (self self' : Experiment) : Prop :=
  name self' = name self ∧ experiment_dir self' = experiment_dir self ∧
  train_loader self' = train_loader self ∧ val_loader self' = val_loader self ∧
  test_loader self' = test_loader self ∧
  epochs self' = epochs self ∧ save self' = save self ∧ load self' = load self.


End experiment.
End experiment.

(** ** model_factory.py *)

(** The values of a configuration: numbers and strings. *)
Inductive py_value : Type :=
| PyInt (z : Z)
| PyStr (s : string).

Module model_factory.
Section model_factory.
Context {Vocabulary model : Type}.

(** The constructor of [base_model], which is not among the sources:
    it is called with (hidden_size, embedding_size, vocab, num_layers,
    model_type). *)
Variable BaselineEncoderDecoder :
  py_value → py_value → Vocabulary → py_value → py_value → model.

(** [config_data[section][key]]; [None] is the KeyError of a missing
    section or key. *)
Definition config_get (config_data : gmap string (gmap string py_value))
    (section key : string) : option py_value :=
  sec ← config_data !! section; sec !! key.

(** [get_model]: the four lookups in the order of the source, then the
    construction; [None] is the KeyError of the first lookup that
    fails. *)
Definition get_model (config_data : gmap string (gmap string py_value))
    (vocab : Vocabulary) : option model :=
  hidden_size ← config_get config_data "model" "hidden_size";
  embedding_size ← config_get config_data "model" "embedding_size";
  model_type ← config_get config_data "model" "model_type";
  num_layers ← config_get config_data "model" "num_layers";
  Some (BaselineEncoderDecoder hidden_size embedding_size vocab num_layers model_type).

End model_factory.
End model_factory.

(** ** A small model and a small experiment to run the code on *)

(** A vocabulary of seven words and a decoder whose next word is a
    function of its input alone. *)
Definition toy_words : list string :=
  ["<pad>"; "<start>"; "<end>"; "<unk>"; "a"; "cat"; "sat"].

Definition toy_idx2word (i : Z) : string :=
  default "<unk>" (toy_words !! Z.to_nat i).

Definition toy_vocab_call (w : string) : Z :=
  match list_find (fun x => x = w) toy_words with
  | Some (i, _) => Z.of_nat i
  | None => 3%Z
  end.

Definition toy_next (h : Z) : Z :=
  (if h =? 9 then 5 else if h =? 5 then 6 else if h =? 6 then 2 else h)%Z.

Definition one_hot (n : nat) (k : Z) : list Z :=
  map (fun i => if (Z.of_nat i =? k)%Z then 1%Z else 0%Z) (seq 0 n).

Definition toy : LSTMModel := {|
  image := Z; emb := Z; hidden := Z; lstm_state := Z; float := Z; generator := Z;
  vocab_size := 7;
  vocab_idx2word := toy_idx2word;
  vocab_call := toy_vocab_call;
  resnet_fc := fun img => img;
  embedding := fun i => i;
  zeros := 0%Z;
  decoder := fun e s => (e, (s + 1)%Z);
  hidden2output := fun h => one_hot 7 (toy_next h);
  log_softmax := fun row => row;
  softmax := fun row => row;
  float_div := Z.div;
  float_lt := Z.ltb;
  categorical_sample := fun row g => ((g `mod` Z.of_nat (length row))%Z, (g + 1)%Z);
|}.

Definition toy_config (max_len : Z) (det : bool) : GenerationConfig Z :=
  {| max_length := max_len; deterministic := det; temperature := 1%Z |}.

(** An experiment whose model is the number of optimizer steps taken,
    whose loss is the size of the batch, a rational number as the
    losses of Python are, and whose model generates the same caption
    for every image. *)
Definition toy_env : ExperimentEnv := {|
  scalar := QArith_base.Q; picture := Z; state_dict := Z; optim_dict := Z;
  ROOT_STATS_DIR := "./experiment_data";
  scalar_zero := QArith_base.inject_Z 0;
  scalar_minus_one := QArith_base.inject_Z (-1);
  scalar_add := QArith_base.Qplus;
  scalar_div := fun x n => QArith_base.Qdiv x (QArith_base.inject_Z n);
  scalar_lt := fun x y => negb (QArith_base.Qle_bool y x);
  batch_loss := fun m imgs caps => QArith_base.inject_Z (Z.of_nat (length imgs));
  optimizer_step := fun m o imgs caps => ((m + 1)%Z, (o + 1)%Z);
  model_generate := fun m imgs => Ok (map (fun _ => ["a"; "cat"]) imgs);
  bleu1 := fun id generated => QArith_base.inject_Z 1;
  bleu4 := fun id generated => QArith_base.inject_Z 0;
  summary_str := fun epoch tl vl => "Epoch";
  test_result_str := fun test_loss b1 b4 => "Test";
|}.

(** The same experiment with [generate] of the toy [LSTMModel] as the
    [generate] of its model. *)
Definition toy_lstm_env : ExperimentEnv := {|
  scalar := QArith_base.Q; picture := Z; state_dict := Z; optim_dict := Z;
  ROOT_STATS_DIR := "./experiment_data";
  scalar_zero := QArith_base.inject_Z 0;
  scalar_minus_one := QArith_base.inject_Z (-1);
  scalar_add := QArith_base.Qplus;
  scalar_div := fun x n => QArith_base.Qdiv x (QArith_base.inject_Z n);
  scalar_lt := fun x y => negb (QArith_base.Qle_bool y x);
  batch_loss := fun m imgs caps => QArith_base.inject_Z (Z.of_nat (length imgs));
  optimizer_step := fun m o imgs caps => ((m + 1)%Z, (o + 1)%Z);
  model_generate := fun m imgs => @generate toy imgs (toy_config 5 true) 0%Z;
  bleu1 := fun id generated => QArith_base.inject_Z 1;
  bleu4 := fun id generated => QArith_base.inject_Z 0;
  summary_str := fun epoch tl vl => "Epoch";
  test_result_str := fun test_loss b1 b4 => "Test";
|}.

(** An experiment of [toy_lstm_env] that has been through its first
    epoch: image 1 is on record as the example. *)
Definition toy_lstm_experiment (n : Z) : @experiment.Experiment toy_lstm_env :=
  @experiment.Build_Experiment toy_lstm_env
    "toy" "./experiment_data"
    [@experiment.Build_batch toy_lstm_env [1%Z] [[1; 4; 2]%Z] [1%Z]]
    [@experiment.Build_batch toy_lstm_env [7%Z] [[1; 4; 2]%Z] [7%Z]]
    [@experiment.Build_batch toy_lstm_env [8%Z] [[1; 4; 2]%Z] [8%Z]]
    n 0%Z [QArith_base.inject_Z 1] [QArith_base.inject_Z 1] false false 1%Z 1%Z (Some 1%Z).

(** A complete model section, and a configuration that holds it beside
    an experiment section. *)
Definition toy_model_section : gmap string py_value :=
  <["hidden_size" := PyInt 512]>
    (<["embedding_size" := PyInt 300]>
       (<["model_type" := PyStr "LSTM"]>
          (<["num_layers" := PyInt 2]> ∅))).

Definition toy_model_config : gmap string (gmap string py_value) :=
  <["experiment" := <["num_epochs" := PyInt 10]> ∅]>
    (<["model" := toy_model_section]> ∅).

Definition toy_world : @experiment.world toy_env :=
  @experiment.Build_world toy_env ∅ ∅ [].

(** A world in which the statistics directory exists. *)
Definition toy_world_dir : @experiment.world toy_env :=
  @experiment.Build_world toy_env {["./experiment_data"]} ∅ [].

(** A world that holds the two histories of one epoch and no
    checkpoint. *)
Definition toy_world_stats : @experiment.world toy_env :=
  @experiment.Build_world toy_env {["./experiment_data"]}
    (<["./experiment_data/val_losses.txt" := Numbers [QArith_base.inject_Z 1]]>
       (<["./experiment_data/training_losses.txt" := Numbers [QArith_base.inject_Z 1]]> ∅)) [].

Definition toy_batch (imgs : list Z) : @experiment.batch toy_env :=
  @experiment.Build_batch toy_env imgs (map (fun _ => [1; 4; 2]%Z) imgs) imgs.

Definition toy_config_data (n : Z) (sv ld : bool) : experiment.config_data :=
  {| experiment.experiment_name := "toy"; experiment.num_epochs := n;
     experiment.config_save := sv; experiment.config_load := ld |}.

(** An experiment constructed with [load] set, before anything is
    loaded. *)
Definition toy_experiment_load (n : Z) : @experiment.Experiment toy_env :=
  @experiment.Build_Experiment toy_env
    "toy" "./experiment_data" [toy_batch [1%Z]] [toy_batch [7%Z]] [toy_batch [8%Z]]
    n 0%Z [] [] true true 0%Z 0%Z None.

(** A fresh experiment over the given training batches, as [__init__]
    leaves it when there is nothing to load. *)
Definition toy_experiment (n : Z) (sv : bool) (train : list (list Z))
  : @experiment.Experiment toy_env :=
  @experiment.Build_Experiment toy_env
    "toy" "./experiment_data" (map toy_batch train) [toy_batch [7%Z]] [toy_batch [8%Z]]
    n 0%Z [] [] sv false 0%Z 0%Z None.

(** * Properties *)

(** ** Python indexing *)

Section python.
Context {A : Type}.
Implicit Types (l : list A) (i : nat) (z : Z).

Lemma py_index_nonneg l z :
  (0 ≤ z < Z.of_nat (length l))%Z → py_index l z = Ok (Z.to_nat z).
Proof.
  intros Hz. unfold py_index.
  destruct (Z.ltb_spec z 0); [lia|].
  destruct (Z.leb_spec 0 z); [|lia].
  destruct (Z.ltb_spec z (Z.of_nat (length l))); [done|lia].
Qed.

Lemma py_index_too_large l z :
  (Z.of_nat (length l) ≤ z)%Z → py_index l z = Raise IndexError.
Proof.
  intros Hz. unfold py_index.
  destruct (Z.ltb_spec z 0); [lia|].
  destruct (Z.ltb_spec z (Z.of_nat (length l))); [lia|].
  by rewrite andb_false_r.
Qed.

Lemma py_getitem_lookup l i x :
  l !! i = Some x → py_getitem l (Z.of_nat i) = Ok x.
Proof.
  intros Hx. unfold py_getitem.
  rewrite py_index_nonneg; [|apply lookup_lt_Some in Hx; lia].
  simpl. by rewrite Nat2Z.id, Hx.
Qed.

Lemma py_getitem_nonneg l z x :
  (0 ≤ z)%Z → l !! Z.to_nat z = Some x → py_getitem l z = Ok x.
Proof.
  intros Hz Hx. rewrite <- (Z2Nat.id z) by done. by apply py_getitem_lookup.
Qed.

Lemma py_getitem_nonneg_inv l z x :
  (0 ≤ z)%Z → py_getitem l z = Ok x → l !! Z.to_nat z = Some x.
Proof.
  intros Hz. unfold py_getitem.
  destruct (Z.lt_ge_cases z (Z.of_nat (length l))).
  - rewrite py_index_nonneg by lia. simpl.
    destruct (l !! Z.to_nat z); [congruence|done].
  - by rewrite py_index_too_large.
Qed.

Lemma py_getitem_empty z : py_getitem (@nil A) z = Raise IndexError.
Proof.
  unfold py_getitem, py_index. simpl.
  destruct (z <? 0)%Z; destruct (_ && _); done.
Qed.

Lemma py_setitem_nonneg l z x :
  (0 ≤ z < Z.of_nat (length l))%Z → py_setitem l z x = Ok (<[Z.to_nat z := x]> l).
Proof. intros Hz. unfold py_setitem. by rewrite py_index_nonneg. Qed.

Lemma py_setitem_nat l i x :
  i < length l → py_setitem l (Z.of_nat i) x = Ok (<[i := x]> l).
Proof.
  intros Hi. rewrite py_setitem_nonneg by lia. by rewrite Nat2Z.id.
Qed.

End python.

(** ** The generation loop *)

(** ** The generation loop *)

Section generate_facts.
Context `{M : LSTMModel}.
Implicit Types (st : gen_state) (images : list image)
  (config : GenerationConfig float) (caps : list (list string)).

Lemma set_start_ok caps k row :
  caps !! k = Some row → row ≠ [] →
  set_start caps k = Ok (<[k := <[0%nat := "<start>"]> row]> caps).
Proof.
  intros Hrow Hne. unfold set_start.
  rewrite (py_getitem_lookup _ _ _ Hrow). cbn [mbind result_bind].
  rewrite (py_setitem_nat row 0); [done|]. destruct row; [done|simpl; lia].
Qed.

(** Writing the start word into the rows [k .. k + n). *)
Lemma set_start_loop n :
  ∀ k caps,
    (k + n ≤ length caps)%nat → Forall (fun row => row ≠ []) caps →
    ∃ caps',
      for_each set_start caps (seq k n) = Ok caps' ∧
      length caps' = length caps ∧
      ∀ i row, caps !! i = Some row →
        caps' !! i = Some (if bool_decide (k ≤ i < k + n)%nat
                           then <[0%nat := "<start>"]> row else row).
Proof.
  induction n as [|n IH]; intros k caps Hkn Hne.
  { exists caps. split; [done|]. split; [done|]. intros i row Hrow.
    rewrite bool_decide_eq_false_2 by lia. done. }
  destruct (lookup_lt_is_Some_2 caps k) as [row Hrow]; [lia|].
  assert (row ≠ []) as Hlen by (eapply Forall_lookup_1 in Hne; [|exact Hrow]; done).
  cbn [seq for_each]. rewrite (set_start_ok _ _ _ Hrow Hlen). cbn [mbind result_bind].
  destruct (IH (S k) (<[k := <[0%nat := "<start>"]> row]> caps)) as (caps' & Hrun & Hl & Hlk).
  { rewrite length_insert. lia. }
  { apply Forall_insert; [done|]. by destruct row. }
  exists caps'. split; [done|]. rewrite length_insert in Hl. split; [done|].
  intros i row0 Hrow0. destruct (decide (i = k)) as [->|Hik].
  - rewrite (Hlk k (<[0%nat := "<start>"]> row)) by (by apply list_lookup_insert_eq; lia).
    rewrite bool_decide_eq_false_2 by lia. rewrite bool_decide_eq_true_2 by lia.
    congruence.
  - rewrite (Hlk i row0) by (by rewrite list_lookup_insert_ne).
    destruct (decide (k ≤ i < k + S n)%nat).
    + by rewrite !bool_decide_eq_true_2 by lia.
    + by rewrite !bool_decide_eq_false_2 by lia.
Qed.

Lemma init_captions_ok B max_len :
  (0 ≤ max_len)%Z →
  init_captions B max_len =
    Ok (replicate B ("<start>" :: replicate (Z.to_nat max_len) "<pad>")).
Proof.
  intros Hm. unfold init_captions.
  replace (Z.to_nat (max_len + 1)) with (S (Z.to_nat max_len)) by lia.
  destruct (set_start_loop B 0 (replicate B (replicate (S (Z.to_nat max_len)) "<pad>")))
    as (caps' & -> & Hl & Hlk).
  { rewrite length_replicate. lia. }
  { apply Forall_replicate. done. }
  f_equal. rewrite length_replicate in Hl.
  apply list_eq. intros i. destruct (decide (i < B)%nat) as [Hi|Hi].
  - rewrite (Hlk i (replicate (S (Z.to_nat max_len)) "<pad>"))
      by (by apply lookup_replicate_2).
    rewrite bool_decide_eq_true_2 by lia.
    symmetry. by apply lookup_replicate_2.
  - rewrite !lookup_ge_None_2; rewrite ?length_replicate; [done|lia|lia].
Qed.

(** The state the loop starts from, when there is one: step 0, nothing
    completed, every flag up. *)
Lemma init_state_start B max_len g st :
  init_state B max_len g = Ok st →
  iter st = 0%Z ∧ num_complete st = 0%Z ∧ keep_generating st = replicate B true ∧
  hidden_states st = replicate B zeros ∧ rng st = g.
Proof.
  unfold init_state. destruct (init_captions B max_len) as [caps|e]; [|done].
  cbn [mbind result_bind]. by intros [= <-].
Qed.

Lemma init_state_ok B max_len g :
  (0 ≤ max_len)%Z → ∃ st, init_state B max_len g = Ok st.
Proof. intros Hm. unfold init_state. rewrite init_captions_ok by done. by eexists. Qed.

(** A batch without images never enters the loop. *)
Lemma generate_final_nil config g :
  generate_final [] config g =
    Ok {| iter := 0; num_complete := 0; captions := []; keep_generating := [];
          hidden_states := []; rng := g |}.
Proof.
  unfold generate_final. cbn [length].
  assert (init_state 0 (max_length config) g =
          Ok {| iter := 0; num_complete := 0; captions := []; keep_generating := [];
                hidden_states := []; rng := g |}) as -> by done.
  cbn [mbind result_bind].
  destruct (Z.to_nat (max_length config + 1)); simpl;
    unfold loop_cond; simpl; by rewrite andb_false_r.
Qed.

(** With a negative [max_length] the buffers are empty, and writing the
    start word into the first one fails. *)
Lemma init_state_negative images config g :
  (max_length config < 0)%Z → images ≠ [] →
  init_state (length images) (max_length config) g = Raise IndexError.
Proof.
  intros Hneg Hne. unfold init_state, init_captions.
  replace (Z.to_nat (max_length config + 1)) with 0%nat by lia.
  destruct images as [|img images]; [done|]. cbn [length replicate seq for_each].
  assert (∀ caps : list (list string), set_start ([] :: caps) 0 = Raise IndexError) as ->.
  { intros caps. unfold set_start.
    by rewrite (py_getitem_lookup ([] :: caps) 0 [] eq_refl). }
  done.
Qed.

(** *** Step 0 *)

(** At step 0 the embedding layer is called on the image features, a
    tensor of floating point numbers, and refuses it. *)
Lemma step_embedded_first images st :
  iter st = 0%Z → step_embedded images st = Raise RuntimeError.
Proof. intros Hit. unfold step_embedded. by rewrite Hit. Qed.

Lemma step_indices_first images config st :
  iter st = 0%Z → step_indices images config st = Raise RuntimeError.
Proof. intros Hit. unfold step_indices. by rewrite step_embedded_first. Qed.

Lemma loop_body_first images config st :
  iter st = 0%Z → loop_body images config st = Raise RuntimeError.
Proof. intros Hit. unfold loop_body. by rewrite step_indices_first. Qed.

(** The loop on a batch that holds an image, entered at step 0. *)
Lemma while_loop_first images config st :
  images ≠ [] → (0 ≤ max_length config)%Z →
  iter st = 0%Z → num_complete st = 0%Z →
  while_loop (Z.to_nat (max_length config + 1)) images config st = Raise RuntimeError.
Proof.
  intros Hne Hm Hit Hnc.
  replace (Z.to_nat (max_length config + 1)) with (S (Z.to_nat (max_length config))) by lia.
  cbn [while_loop]. unfold loop_cond. rewrite Hit, Hnc.
  destruct images as [|img images]; [done|].
  destruct (Z.ltb_spec 0 (max_length config + 1)); [|lia].
  destruct (Z.ltb_spec 0 (Z.of_nat (length (img :: images)))); [|simpl in *; lia].
  cbn [andb]. by rewrite loop_body_first.
Qed.

Lemma generate_final_first images config g :
  images ≠ [] → (0 ≤ max_length config)%Z →
  generate_final images config g = Raise RuntimeError.
Proof.
  intros Hne Hm. unfold generate_final.
  destruct (init_state_ok (length images) (max_length config) g Hm) as [st Hst].
  rewrite Hst. cbn [mbind result_bind].
  apply init_state_start in Hst as (Hit & Hnc & _).
  by apply while_loop_first.
Qed.

End generate_facts.

(** C10.  The loop of [generate] does not run for [max_length + 1]
    steps and returns no list of captions: whenever the batch holds an
    image and [max_length] is not negative, the first iteration hands
    the image features to the embedding layer and [generate] ends with
    the RuntimeError of that call. *)
Theorem generate_raises_on_images `{M : LSTMModel} (images : list image)
    (config : GenerationConfig float) (g : generator) :
  images ≠ [] → (0 ≤ max_length config)%Z →
  generate images config g = Raise RuntimeError.
Proof.
  intros Hne Hm. unfold generate. by rewrite generate_final_first.
Qed.

(** The theorem at two images and [max_length = 3]. *)
Lemma generate_raises_on_images_witness :
  @generate toy [9; 4]%Z (toy_config 3 true) 0%Z = Raise RuntimeError.
Proof.
  apply (@generate_raises_on_images toy); [discriminate|simpl; lia].
Defined.

(** C1.  Whatever [generate] returns, it is not a list of captions of
    bounded length, one per image: it returns for the batch without
    images only, and then the empty list. *)
Theorem generate_returns_no_caption `{M : LSTMModel} (images : list image)
    (config : GenerationConfig float) (g : generator) (out : list (list string)) :
  generate images config g = Ok out → images = [] ∧ out = [].
Proof.
  unfold generate. destruct images as [|img images].
  - rewrite generate_final_nil. cbn [mbind result_bind]. by intros [= <-].
  - destruct (Z.lt_ge_cases (max_length config) 0) as [Hneg|Hm].
    + unfold generate_final. by rewrite init_state_negative.
    + by rewrite generate_final_first.
Qed.

(** The only batch [generate] returns for. *)
Lemma generate_returns_no_caption_witness :
  @generate toy [] (toy_config 5 true) 0%Z = Ok [] ∧ (@nil Z = [] ∧ @nil (list string) = []).
Proof.
  split; [reflexivity|].
  apply (@generate_returns_no_caption toy [] (toy_config 5 true) 0%Z []). reflexivity.
Defined.

(** C2.  At step 0 the decoder input is not the image embedding: it is
    what the embedding layer makes of the image features, and the layer
    refuses them, so that the step ends before the recurrent update.
    [forward] hands the same features to the decoder as they are. *)
Theorem generate_first_input_refused `{M : LSTMModel} (images : list image)
    (config : GenerationConfig float) (st : gen_state) :
  iter st = 0%Z →
  step_embedded images st = word_embedder (Floats (encode images)) ∧
  step_embedded images st = Raise RuntimeError ∧
  step_indices images config st = Raise RuntimeError ∧
  ∀ img caption, forward_embedded img caption !! 0%nat = Some (resnet_fc img).
Proof.
  intros Hit. split_and!.
  - unfold step_embedded. by rewrite Hit.
  - by apply step_embedded_first.
  - by apply step_indices_first.
  - done.
Qed.

(** The first step on two images. *)
Lemma generate_first_input_refused_witness :
  @step_embedded toy [9; 4]%Z
    (@GenState toy 0 0 [["<start>"; "<pad>"]; ["<start>"; "<pad>"]] [true; true]
               [0%Z; 0%Z] 0%Z) =
    Raise RuntimeError.
Proof.
  apply (@generate_first_input_refused toy [9; 4]%Z (toy_config 1 true)). reflexivity.
Defined.





(** ** Edge inputs of [generate] *)

(** A batch without images: [generate] returns the empty list without
    going through the loop once, whatever the configuration. *)
Theorem generate_empty_batch `{M : LSTMModel} (config : GenerationConfig float)
    (g : generator) :
  generate [] config g = Ok [] ∧
  ∃ st0, init_state 0 (max_length config) g = Ok st0 ∧
         iterations 1 [] config st0 = None.
Proof.
  unfold generate, generate_final. cbn [length].
  assert (init_state 0 (max_length config) g =
          Ok {| iter := 0; num_complete := 0; captions := []; keep_generating := [];
                hidden_states := []; rng := g |}) as Hinit by done.
  rewrite Hinit. cbn [mbind result_bind].
  assert (∀ st, num_complete st = 0%Z → loop_cond 0 (max_length config) st = false) as Hc.
  { intros st Hnc. unfold loop_cond. rewrite Hnc. simpl. by rewrite andb_false_r. }
  split.
  - destruct (Z.to_nat (max_length config + 1)); simpl; by rewrite Hc.
  - eexists. split; [done|]. simpl. by rewrite Hc.
Qed.

(** A negative [max_length] with at least one image: the buffers have
    no place for the start word, and [generate] fails with an
    IndexError before the loop. *)
Theorem generate_negative_max_length `{M : LSTMModel} (images : list image)
    (config : GenerationConfig float) (g : generator) :
  (max_length config < 0)%Z → images ≠ [] →
  generate images config g = Raise IndexError.
Proof.
  intros Hneg Hne. unfold generate, generate_final, init_state, init_captions.
  replace (Z.to_nat (max_length config + 1)) with 0%nat by lia.
  destruct images as [|img images]; [done|]. cbn [length replicate seq for_each].
  assert (∀ caps : list (list string), set_start ([] :: caps) 0 = Raise IndexError) as ->.
  { intros caps. unfold set_start.
    by rewrite (py_getitem_lookup ([] :: caps) 0 [] eq_refl). }
  done.
Qed.

(** The theorem at two images and [max_length = -1]. *)
Lemma generate_negative_max_length_witness :
  @generate toy [9; 4]%Z (toy_config (-1) true) 0%Z = Raise IndexError.
Proof.
  apply (@generate_negative_max_length toy); [simpl; lia|discriminate].
Defined.

(** ** Teacher-forced scoring *)

Section forward_facts.
Context `{M : LSTMModel}.

Lemma decoder_seq_length (inputs : list emb) (s : lstm_state) :
  length (decoder_seq inputs s) = length inputs.
Proof.
  revert s. induction inputs as [|x inputs IH]; intros s; [done|].
  simpl. destruct (decoder x s) as [h s']. simpl. by rewrite IH.
Qed.

Lemma forward_embedded_length (img : image) (caption : list Z) :
  length (forward_embedded img caption) = S (length caption - 1).
Proof.
  unfold forward_embedded, drop_last. simpl.
  rewrite length_map, length_take. lia.
Qed.

Lemma forward_logits_length (img : image) (caption : list Z) :
  length (forward_logits img caption) = S (length caption - 1).
Proof.
  unfold forward_logits.
  by rewrite length_map, decoder_seq_length, forward_embedded_length.
Qed.

(** [permute] of a (seq len, vocab size) matrix is the (vocab size,
    seq len) matrix with the same entries. *)
Lemma permute_spec (size : nat) (rows : list (list float)) :
  Forall (fun r => length r = size) rows →
  length (permute size rows) = size ∧
  ∀ v col, permute size rows !! v = Some col →
    length col = length rows ∧
    ∀ l, col !! l = rows !! l ≫= (fun r => r !! v).
Proof.
  induction 1 as [|r rows Hr _ IH]; simpl.
  - rewrite length_replicate. split; [done|].
    intros v col Hcol. apply lookup_replicate in Hcol as [-> _]. done.
  - destruct IH as [Hlen IH]. rewrite length_zip_with. split; [lia|].
    intros v col Hcol. apply lookup_zip_with_Some in Hcol as (x & col' & -> & Hx & Hcol').
    destruct (IH v col' Hcol') as [Hl Hent]. simpl. split; [by rewrite Hl|].
    intros [|l]; simpl; [by rewrite Hx|]. apply Hent.
Qed.

Lemma embed_index_ok (i : Z) : in_vocab i → embed_index i = Ok (embedding i).
Proof.
  intros [H0 H1]. unfold embed_index.
  destruct (Z.leb_spec 0 i); [|lia]. destruct (Z.ltb_spec i (Z.of_nat vocab_size)); [done|lia].
Qed.

Lemma embed_index_cases (i : Z) :
  embed_index i = Ok (embedding i) ∨ embed_index i = Raise IndexError.
Proof.
  unfold embed_index.
  destruct ((0 <=? i)%Z && (i <? Z.of_nat vocab_size)%Z); [by left|by right].
Qed.

Lemma embed_row_ok (row : list Z) :
  Forall in_vocab row → comprehension embed_index row = Ok (map embedding row).
Proof.
  induction 1 as [|i row Hi _ IH]; [done|].
  cbn [comprehension]. rewrite embed_index_ok by done. cbn [mbind result_bind].
  by rewrite IH.
Qed.

Lemma embed_rows_ok (idx : list (list Z)) :
  Forall (Forall in_vocab) idx →
  word_embedder (Indices idx) = Ok (map (map embedding) idx).
Proof.
  unfold word_embedder. induction 1 as [|row idx Hrow _ IH]; [done|].
  cbn [comprehension]. rewrite embed_row_ok by done. cbn [mbind result_bind].
  by rewrite IH.
Qed.

(** Whatever the embedding layer returns, for one row of indices, it is
    a value or an IndexError. *)
Lemma word_embedder_indices_cases (idx : list (list Z)) :
  (∃ embedded, word_embedder (Indices idx) = Ok embedded ∧ length embedded = length idx) ∨
  word_embedder (Indices idx) = Raise IndexError.
Proof.
  unfold word_embedder. induction idx as [|row idx IH]; [left; by eexists|].
  cbn [comprehension].
  assert ((∃ r, comprehension embed_index row = Ok r) ∨
          comprehension embed_index row = Raise IndexError) as [[r ->]| ->]; [|..].
  { clear. induction row as [|i row IH]; [left; by eexists|].
    cbn [comprehension]. destruct (embed_index_cases i) as [-> | ->]; [|by right].
    cbn [mbind result_bind].
    destruct IH as [[r ->]| ->]; [left; by eexists|by right]. }
  - cbn [mbind result_bind]. destruct IH as [(embedded & -> & Hl)| ->]; [|by right].
    left. eexists. split; [done|]. simpl. by rewrite Hl.
  - by right.
Qed.

(** [forward] on a batch of another size than 1, with one target per
    image and every token fed in within the vocabulary, row by row. *)
Lemma forward_rows (images : list image) (captions : list (list Z)) :
  length images = length captions → length images ≠ 1%nat →
  Forall (fun caption => Forall in_vocab (drop_last caption)) captions →
  forward images captions =
    Ok (zip_with (fun img caption => permute vocab_size (forward_logits img caption))
                 images captions).
Proof.
  intros Hlen Hone Hvocab. unfold forward.
  rewrite embed_rows_ok by (by apply Forall_fmap).
  cbn [mbind result_bind].
  assert (encode images = Batch (map resnet_fc images)) as ->.
  { unfold encode. destruct images as [|img [|img' images]]; done. }
  unfold cat_features. rewrite !length_map.
  destruct (decide _) as [_|Hne]; [|done]. cbn [mbind result_bind]. f_equal.
  clear Hone Hvocab. revert captions Hlen.
  induction images as [|img images IH]; intros [|caption captions] Hlen; try done.
  simpl in *. f_equal. apply IH. lia.
Qed.

End forward_facts.

(** C3.  A batch of one image is not scored: [squeeze_()] removes the
    batch dimension with the other dimensions of size 1, the features
    cannot be put in front of the embeddings of the target, and
    [forward] ends with a RuntimeError (with an IndexError when the
    target feeds in a token outside the vocabulary). *)
Theorem forward_single_image_raises `{M : LSTMModel} (img : image) (caption : list Z) :
  (∀ out, forward [img] [caption] ≠ Ok out) ∧
  (Forall in_vocab (drop_last caption) → forward [img] [caption] = Raise RuntimeError).
Proof.
  split.
  - intros out. unfold forward.
    destruct (word_embedder_indices_cases (map drop_last [caption]))
      as [(embedded & -> & _)| ->]; done.
  - intros Hvocab. unfold forward.
    rewrite embed_rows_ok by (by apply Forall_singleton). done.
Qed.

(** One image and a target of four tokens. *)
Lemma forward_single_image_raises_witness :
  @forward toy [9%Z] [[1; 5; 6; 2]%Z] = Raise RuntimeError.
Proof.
  apply (@forward_single_image_raises toy 9%Z [1; 5; 6; 2]%Z).
  unfold in_vocab. simpl. repeat constructor; simpl; lia.
Defined.

(** A batch of two or more images with a target of [L] tokens, [L] at
    least 1 and every token fed in within the vocabulary, for each:
    [forward] returns, for each example, the logits of [L] positions
    with the vocabulary as the first dimension. *)
Theorem forward_scores_batch `{M : LSTMModel} (images : list image)
    (captions : list (list Z)) (L : nat) :
  (∀ h, length (hidden2output h) = vocab_size) →
  length images = length captions → (2 ≤ length images)%nat → (1 ≤ L)%nat →
  Forall (fun caption => length caption = L ∧ Forall in_vocab (drop_last caption)) captions →
  ∃ out,
    forward images captions = Ok out ∧ length out = length images ∧
    ∀ i img caption, images !! i = Some img → captions !! i = Some caption →
      ∃ scores,
        out !! i = Some scores ∧
        scores = permute vocab_size (forward_logits img caption) ∧
        length scores = vocab_size ∧
        ∀ v col, scores !! v = Some col →
          length col = L ∧
          ∀ l, col !! l = forward_logits img caption !! l ≫= (fun r => r !! v).
Proof.
  intros Hvocab Hlen Htwo HL Hcaps.
  eexists. split.
  { apply forward_rows; [done|lia|]. eapply Forall_impl; [exact Hcaps|]. by intros c [_ ?]. }
  split; [rewrite length_zip_with; lia|].
  intros i img caption Himg Hcap.
  exists (permute vocab_size (forward_logits img caption)).
  split. { apply lookup_zip_with_Some. by exists img, caption. }
  split; [done|].
  destruct (permute_spec vocab_size (forward_logits img caption)) as [Hl Hcols].
  { unfold forward_logits. apply Forall_fmap, Forall_forall. intros h _. apply Hvocab. }
  split; [done|]. intros v col Hcol. destruct (Hcols v col Hcol) as [Hcl Hent].
  split; [|done]. rewrite Hcl, forward_logits_length.
  eapply Forall_lookup_1 in Hcaps as [-> _]; [|exact Hcap]. lia.
Qed.

(** Two images with targets of four tokens. *)
Lemma forward_scores_batch_witness :
  ∃ out, @forward toy [9; 4]%Z [[1; 5; 6; 2]; [1; 4; 4; 2]]%Z = Ok out ∧
         length out = 2%nat.
Proof.
  destruct (@forward_scores_batch toy [9; 4]%Z [[1; 5; 6; 2]; [1; 4; 4; 2]]%Z 4)
    as (out & Hout & Hlen & _).
  - intros h. reflexivity.
  - reflexivity.
  - simpl. lia.
  - lia.
  - unfold in_vocab. repeat constructor; simpl; lia.
  - exists out. split; [exact Hout|exact Hlen].
Defined.

(** ** Teacher forcing looks at earlier tokens only *)

Section causality.
Context `{M : LSTMModel}.



End causality.



(** ** The orchestrator *)

Section experiment_facts.
Import experiment.
Context `{Env : ExperimentEnv}.
Implicit Types (self : Experiment) (w : world) (b : batch).

(** *** Paths *)

Lemma append_inj_r (p a b : string) : p +:+ a = p +:+ b → a = b.
Proof.
  induction p as [|c p IH]; [done|].
  change (String c (p +:+ a) = String c (p +:+ b) → a = b).
  intros [= H]. by apply IH.
Qed.

(** Joining a directory with a relative name puts a prefix that
    depends on the directory alone in front of the name. *)
Lemma path_join_relative (d : string) :
  ∃ p, ∀ f, String.prefix "/" f = false → path_join d f = p +:+ f.
Proof.
  destruct (decide (d = "")) as [->|Hd].
  - exists "". intros f Hf. unfold path_join. rewrite Hf. done.
  - destruct (ends_with_slash d) eqn:Hs.
    + exists d. intros f Hf. unfold path_join. rewrite Hf, Hs.
      by destruct (decide (d = "")).
    + exists (d +:+ "/"). intros f Hf. unfold path_join. rewrite Hf, Hs.
      destruct (decide (d = "")); [done|].
      clear. induction d as [|c d IH]; [done|].
      change (String c (d +:+ "/" +:+ f) = String c ((d +:+ "/") +:+ f)). by f_equal.
Qed.

Lemma path_join_ne (d f1 f2 : string) :
  String.prefix "/" f1 = false → String.prefix "/" f2 = false → f1 ≠ f2 →
  path_join d f1 ≠ path_join d f2.
Proof.
  intros H1 H2 Hne. destruct (path_join_relative d) as [p Hp].
  rewrite (Hp f1 H1), (Hp f2 H2). intros Heq. by apply append_inj_r in Heq.
Qed.

(** *** The training pass *)

Lemma same_setup_refl self : same_setup self self.
Proof. by repeat split. Qed.

Lemma same_setup_trans self1 self2 self3 :
  same_setup self1 self2 → same_setup self2 self3 → same_setup self1 self3.
Proof. unfold same_setup. intros. split_and!; destruct_and!; congruence. Qed.

(** A batch met when an example image is on record: its loss is added
    to the running sum and the optimizer takes a step. *)
Lemma train_batch_ok self w acc b img :
  example_img self = Some img →
  train_batch (self, w, acc) b =
    Ok (with_model self
          (optimizer_step (model self) (optimizer self) (images b) (captions b)).1
          (optimizer_step (model self) (optimizer self) (images b) (captions b)).2,
        emit (OptimizerStep (length (images b))) w,
        scalar_add acc (batch_loss (model self) (images b) (captions b))).
Proof.
  intros Himg. unfold train_batch. rewrite Himg. cbn [mbind result_bind].
  by destruct (optimizer_step _ _ _ _).
Qed.

(** What a batch leaves as it was. *)
Lemma train_batch_frame self w acc b self' w' acc' :
  train_batch (self, w, acc) b = Ok (self', w', acc') →
  same_setup self self' ∧ current_epoch self' = current_epoch self ∧
  training_losses self' = training_losses self ∧ val_losses self' = val_losses self ∧
  is_Some (example_img self') ∧
  dirs w' = dirs w ∧ files w' = files w ∧
  trace w' = (trace w ++ [OptimizerStep (length (images b))])%list.
Proof.
  unfold train_batch. destruct (example_img self) as [img|] eqn:Himg.
  - cbn [mbind result_bind]. destruct (optimizer_step _ _ _ _) as [m o].
    intros [= <- <- <-]. simpl. rewrite Himg. split_and!; try done; by eexists.
  - destruct (py_getitem (images b) 0) as [img|e]; [|done]. cbn [mbind result_bind].
    simpl. destruct (optimizer_step _ _ _ _) as [m o].
    intros [= <- <- <-]. simpl. split_and!; try done; by eexists.
Qed.

Lemma train_loop_frame (bs : list batch) :
  ∀ self w acc self' w' acc',
    for_each train_batch (self, w, acc) bs = Ok (self', w', acc') →
    same_setup self self' ∧ current_epoch self' = current_epoch self ∧
    training_losses self' = training_losses self ∧ val_losses self' = val_losses self ∧
    dirs w' = dirs w ∧ files w' = files w ∧
    trace w' = (trace w ++ map (fun b => OptimizerStep (length (images b))) bs)%list.
Proof.
  induction bs as [|b bs IH]; intros self w acc self' w' acc'; cbn [for_each map].
  { intros [= <- <- <-]. rewrite app_nil_r. split_and!; try done; apply same_setup_refl. }
  destruct (train_batch (self, w, acc) b) as [[[self1 w1] acc1]|e] eqn:Hb; [|done].
  cbn [mbind result_bind]. intros Hrest.
  apply train_batch_frame in Hb as (Hs1 & He1 & Ht1 & Hv1 & _ & Hd1 & Hf1 & Htr1).
  apply IH in Hrest as (Hs & He & Ht & Hv & Hd & Hf & Htr).
  split_and!; try congruence; [by eapply same_setup_trans|].
  rewrite Htr, Htr1, <- app_assoc. done.
Qed.

Lemma train_frame self w epoch self' w' loss :
  train self w epoch = Ok (self', w', loss) →
  same_setup self self' ∧ current_epoch self' = current_epoch self ∧
  training_losses self' = training_losses self ∧ val_losses self' = val_losses self ∧
  dirs w' = dirs w ∧ files w' = files w ∧
  trace w' = (trace w ++ map (fun b => OptimizerStep (length (images b)))
                             (train_loader self))%list.
Proof.
  unfold train.
  destruct (for_each train_batch _ _) as [[[self1 w1] acc1]|e] eqn:Hloop; [|done].
  cbn [mbind result_bind]. destruct (decide _); [done|].
  intros [= <- <- <-]. by eapply train_loop_frame.
Qed.

(** The loop over the batches when an example image is on record: it
    does not raise, whatever the sizes of the batches. *)
Lemma train_loop_ok (bs : list batch) :
  ∀ self w acc img, example_img self = Some img →
    ∃ self' w' acc', for_each train_batch (self, w, acc) bs = Ok (self', w', acc') ∧
                     example_img self' = Some img.
Proof.
  induction bs as [|b bs IH]; intros self w acc img Himg; cbn [for_each].
  { by exists self, w, acc. }
  rewrite (train_batch_ok _ _ _ _ _ Himg). cbn [mbind result_bind].
  apply IH. done.
Qed.

Lemma for_each_app {S I} (body : S → I → result S) (s : S) (l1 l2 : list I) :
  for_each body s (l1 ++ l2) = for_each body s l1 ≫= fun s' => for_each body s' l2.
Proof.
  revert s. induction l1 as [|i l1 IH]; intros s; [done|].
  cbn [app for_each]. destruct (body s i) as [s'|e]; [|done]. apply IH.
Qed.



(** The training pass over a loader that is not empty, when an example
    image is on record or the first batch has an image to record. *)
Lemma train_ok self w epoch :
  train_loader self ≠ [] →
  (is_Some (example_img self) ∨
   ∃ b bs, train_loader self = b :: bs ∧ images b ≠ []) →
  ∃ self' w' loss, train self w epoch = Ok (self', w', loss) ∧
                   is_Some (example_img self').
Proof.
  intros Hne Hex.
  assert (∃ self' w' acc',
            for_each train_batch (self, w, scalar_zero) (train_loader self) =
              Ok (self', w', acc') ∧ is_Some (example_img self'))
    as (self' & w' & acc' & Hloop & Hsome).
  { destruct Hex as [[img Himg]|(b & bs & Hloader & Himgs)].
    - destruct (train_loop_ok (train_loader self) self w scalar_zero img Himg)
        as (self' & w' & acc' & Hloop & Himg').
      exists self', w', acc'. split; [done|]. by eexists.
    - rewrite Hloader. cbn [for_each].
      destruct (train_batch (self, w, scalar_zero) b) as [[[self1 w1] acc1]|e] eqn:Hb.
      + pose proof (train_batch_frame _ _ _ _ _ _ _ Hb) as (_ & _ & _ & _ & [img Himg] & _).
        cbn [mbind result_bind].
        destruct (train_loop_ok bs self1 w1 acc1 img Himg)
          as (self' & w' & acc' & Hloop & Himg').
        exists self', w', acc'. split; [done|]. by eexists.
      + exfalso. revert Hb. unfold train_batch.
        destruct (example_img self); cbn [mbind result_bind].
        * by destruct (optimizer_step _ _ _ _).
        * destruct (images b) as [|img imgs] eqn:Hi; [done|].
          rewrite (py_getitem_nonneg (img :: imgs) 0 img) by done. cbn [mbind result_bind].
          by destruct (optimizer_step _ _ _ _). }
  exists self', w', (scalar_div acc' (Z.of_nat (length (train_loader self')))).
  unfold train. rewrite Hloop. cbn [mbind result_bind].
  pose proof (train_loop_frame _ _ _ _ _ _ _ Hloop) as ((_ & _ & Hl & _) & _).
  destruct (decide _) as [Hz|_]; [|done].
  rewrite Hl in Hz. by apply nil_length_inv in Hz.
Qed.

Lemma train_keeps_example self w epoch self' w' loss :
  train self w epoch = Ok (self', w', loss) → is_Some (example_img self').
Proof.
  unfold train.
  destruct (for_each train_batch _ _) as [[[self1 w1] acc1]|e] eqn:Hloop; [|done].
  cbn [mbind result_bind]. destruct (decide _) as [|Hne]; [done|]. intros [= <- <- <-].
  pose proof (train_loop_frame _ _ _ _ _ _ _ Hloop) as ((_ & _ & Hl & _) & _).
  rewrite Hl in Hne. destruct (train_loader self) as [|b bs]; [done|].
  cbn [for_each] in Hloop.
  destruct (train_batch _ b) as [[[self2 w2] acc2]|e] eqn:Hb; [|done].
  apply train_batch_frame in Hb as (_ & _ & _ & _ & [img Himg] & _).
  cbn [mbind result_bind] in Hloop.
  destruct (train_loop_ok bs self2 w2 acc2 img Himg) as (s & w3 & a & Hloop' & Himg').
  rewrite Hloop in Hloop'. injection Hloop' as <- <- <-. by eexists.
Qed.

Lemma train_empty self w epoch :
  train_loader self = [] → train self w epoch = Raise ZeroDivisionError.
Proof.
  intros Hempty. unfold train. rewrite Hempty. cbn [for_each mbind result_bind].
  rewrite Hempty. done.
Qed.

Lemma train_batch_numbers self w acc b self' w' acc' :
  train_batch (self, w, acc) b = Ok (self', w', acc') →
  acc' = scalar_add acc (batch_loss (model self) (images b) (captions b)) ∧
  model self' = (optimizer_step (model self) (optimizer self) (images b) (captions b)).1 ∧
  optimizer self' = (optimizer_step (model self) (optimizer self) (images b) (captions b)).2.
Proof.
  unfold train_batch. destruct (example_img self) as [img|].
  - cbn [mbind result_bind]. destruct (optimizer_step _ _ _ _) as [m o].
    by intros [= <- <- <-].
  - destruct (py_getitem (images b) 0) as [img|e]; [|done]. cbn [mbind result_bind].
    simpl. destruct (optimizer_step _ _ _ _) as [m o]. by intros [= <- <- <-].
Qed.

Lemma train_loop_numbers (bs : list batch) :
  ∀ self w acc self' w' acc',
    for_each train_batch (self, w, acc) bs = Ok (self', w', acc') →
    acc' = foldl scalar_add acc (train_trajectory (model self) (optimizer self) bs).1.1 ∧
    model self' = (train_trajectory (model self) (optimizer self) bs).1.2 ∧
    optimizer self' = (train_trajectory (model self) (optimizer self) bs).2.
Proof.
  induction bs as [|b bs IH]; intros self w acc self' w' acc'; cbn [for_each].
  { by intros [= <- <- <-]. }
  destruct (train_batch (self, w, acc) b) as [[[self1 w1] acc1]|e] eqn:Hb; [|done].
  cbn [mbind result_bind]. intros Hrest.
  apply train_batch_numbers in Hb as (-> & Hm1 & Ho1).
  apply IH in Hrest as (-> & Hm & Ho). rewrite Hm1, Ho1 in *.
  cbn [train_trajectory].
  destruct (optimizer_step (model self) (optimizer self) (images b) (captions b)) as [m o].
  simpl in *. destruct (train_trajectory m o bs) as [[losses m_end] o_end]. done.
Qed.

Lemma train_trajectory_length (m : state_dict) (o : optim_dict) (bs : list batch) :
  length (train_trajectory m o bs).1.1 = length bs.
Proof.
  revert m o. induction bs as [|b bs IH]; intros m o; [done|].
  cbn [train_trajectory]. destruct (optimizer_step m o _ _) as [m' o'].
  specialize (IH m' o'). destruct (train_trajectory m' o' bs) as [[losses m_end] o_end].
  simpl in *. by rewrite IH.
Qed.

(** *** The test pass and the example caption *)

(** The first batch of a test pass never gets to its end: it is the
    batch of index 0, whose best caption is handed to [tqdm.write]. *)
Lemma test_batch_first self acc b r : test_batch self acc (0%nat, b) ≠ Ok r.
Proof.
  unfold test_batch. destruct acc as [[test_loss b1] b4].
  destruct (model_generate _ _) as [generated|e]; [|done]. cbn [mbind result_bind].
  destruct (for_each _ _ _) as [[[[[t1 t4] num] max_bleu] max_idx]|e]; [|done].
  cbn [mbind result_bind]. change (Z.of_nat 0 `mod` 10 =? 0)%Z with true. cbn iota.
  destruct (py_getitem (images b) max_idx); [|done]. cbn [mbind result_bind].
  destruct (py_getitem generated max_idx); done.
Qed.

(** [test] never returns: with a batch to test it raises in the first
    one, a TypeError at the latest; without one the averages divide by
    zero. *)
Lemma test_raises self w w' : test self w ≠ Ok w'.
Proof.
  unfold test. destruct (test_loader self) as [|b bs]; [done|].
  cbn [imap for_each].
  destruct (test_batch self _ (0%nat, b)) as [r|e] eqn:Hb; [|done].
  by apply test_batch_first in Hb.
Qed.

Lemma test_empty self w : test_loader self = [] → test self w = Raise ZeroDivisionError.
Proof. intros Hempty. unfold test. by rewrite Hempty. Qed.

(** When the model generates a caption for every batch of one image,
    the example caption is no obstacle. *)
Lemma generate_example_caption_ok self :
  generates_examples → generate_example_caption self = Ok ().
Proof.
  intros Hgen. unfold generate_example_caption.
  destruct (example_img self) as [img|]; [|done].
  destruct (Hgen (model self) img) as (c & cs & ->). done.
Qed.

Lemma generate_example_caption_none self :
  example_img self = None → generate_example_caption self = Ok ().
Proof. intros Hnone. unfold generate_example_caption. by rewrite Hnone. Qed.

(** *** One epoch *)

Lemma trace_log self s f w : trace (log self s f w) = trace w.
Proof. unfold log. destruct (save self); [|done]. by destruct f. Qed.

Lemma lookup_log self s f w (p : string) :
  p ≠ path_join (experiment_dir self) "all.log" →
  (∀ name, f = Some name → p ≠ path_join (experiment_dir self) name) →
  files (log self s f w) !! p = files w !! p.
Proof.
  intros Hall Hf. unfold log. destruct (save self); [|done].
  destruct f as [name|]; simpl.
  - rewrite lookup_insert_ne by (apply not_eq_sym, Hf; done).
    by rewrite lookup_insert_ne.
  - by rewrite lookup_insert_ne.
Qed.

Lemma dirs_log self s f w : dirs (log self s f w) = dirs w.
Proof. unfold log. destruct (save self); [|done]. by destruct f. Qed.

Lemma record_stats_spec self w tl vl self' w' :
  record_stats self w tl vl = (self', w') →
  self' = with_losses self (training_losses self ++ [tl]) (val_losses self ++ [vl]) ∧
  trace w' = trace w ∧ dirs w' = dirs w ∧
  (save self = false → w' = w) ∧
  (save self = true →
   files w' =
     <[path_join (experiment_dir self) "val_losses.txt" := Numbers (val_losses self ++ [vl])]>
       (<[path_join (experiment_dir self) "training_losses.txt" :=
            Numbers (training_losses self ++ [tl])]> (files w))).
Proof.
  unfold record_stats. simpl. destruct (save self); intros [= <- <-]; by split_and!.
Qed.

Lemma log_epoch_stats_spec self w w' :
  log_epoch_stats self w = Ok w' →
  ∃ s, w' = log self s (Some "epoch.log") w.
Proof.
  unfold log_epoch_stats.
  destruct (py_getitem (training_losses self) _) as [x|e]; [|done].
  destruct (py_getitem (val_losses self) _) as [y|e]; [|done].
  cbn [mbind result_bind]. intros [= <-]. by eexists.
Qed.

Lemma save_model_spec self w w' :
  save_model self w = Ok w' →
  dirs w' = dirs w ∧ trace w' = trace w ∧
  (save self = false → w' = w) ∧
  (save self = true →
   experiment_dir self ∈ dirs w ∧
   files w' = <[path_join (experiment_dir self) "latest_model.pt" :=
                  Checkpoint (model self) (optimizer self)]> (files w)).
Proof.
  unfold save_model, torch_save. destruct (save self).
  - case_bool_decide; [|done]. intros [= <-]. by split_and!.
  - intros [= <-]. by split_and!.
Qed.

Lemma plot_stats_spec self (save_fig : bool) w w' :
  plot_stats self save_fig w = Ok w' →
  length (val_losses self) = length (training_losses self) ∧
  dirs w' = dirs w ∧ trace w' = trace w ∧
  ∀ p, p ≠ path_join (experiment_dir self) "stat_plot.png" → files w' !! p = files w !! p.
Proof.
  unfold plot_stats. destruct (decide _) as [Hlen|]; [|done].
  destruct (save self && save_fig).
  - case_bool_decide; [|done]. intros [= <-]. split_and!; try done.
    intros p Hp. simpl. by rewrite lookup_insert_ne.
  - intros [= <-]. by split_and!.
Qed.

(** One epoch of [run] that returns: no test pass was due, the epoch
    is the current one, each history has one more entry, and the
    histories and the checkpoint are on disk when [save] is set. *)
Lemma run_epoch_spec start self w epoch self' w' :
  run_epoch start (self, w) epoch = Ok (self', w') →
  same_setup self self' ∧ current_epoch self' = epoch ∧
  (∃ tl vl, training_losses self' = (training_losses self ++ [tl])%list ∧
            val_losses self' = (val_losses self ++ [vl])%list) ∧
  test_due start epoch = false ∧
  dirs w' = dirs w ∧
  is_Some (example_img self') ∧
  (save self = true →
   files w' !! path_join (experiment_dir self) "training_losses.txt" =
     Some (Numbers (training_losses self')) ∧
   files w' !! path_join (experiment_dir self) "val_losses.txt" =
     Some (Numbers (val_losses self')) ∧
   files w' !! path_join (experiment_dir self) "latest_model.pt" =
     Some (Checkpoint (model self') (optimizer self'))).
Proof.
  unfold run_epoch, epoch_body.
  destruct (generate_example_caption self) as [[]|e]; [|done]. cbn [mbind result_bind].
  destruct (test_due start epoch) eqn:Hdue.
  { destruct (test self w) as [w0|e] eqn:Htest; [|done]. by apply test_raises in Htest. }
  cbn [mbind result_bind].
  destruct (train (with_current_epoch self epoch) w epoch) as [[[self1 w1] tl]|e] eqn:Htrain;
    [|done].
  cbn [mbind result_bind].
  pose proof (train_keeps_example _ _ _ _ _ _ Htrain) as Hex.
  apply train_frame in Htrain as (Hs1 & He1 & Ht1 & Hv1 & Hd1 & Hf1 & Htr1).
  destruct (val self1 epoch) as [vl|e]; [|done]. cbn [mbind result_bind].
  destruct (record_stats self1 w1 tl vl) as [self2 w2] eqn:Hrec.
  apply record_stats_spec in Hrec as (-> & Htr2 & Hd2 & _ & Hf2).
  set (self2 := with_losses self1 _ _) in *.
  destruct (log_epoch_stats self2 w2) as [w3|e] eqn:Hlog; [|done].
  cbn [mbind result_bind].
  destruct (save_model self2 w3) as [w4|e] eqn:Hsave; [|done]. cbn [mbind result_bind].
  destruct (plot_stats self2 true w4) as [w5|e] eqn:Hplot; [|done]. cbn [mbind result_bind].
  intros [= <- <-].
  apply log_epoch_stats_spec in Hlog as [s ->].
  apply save_model_spec in Hsave as (Hd4 & _ & _ & Hf4).
  apply plot_stats_spec in Hplot as (_ & Hd5 & _ & Hf5).
  destruct Hs1 as (Hn & Hdir & Htl & Hvl & Hte & Hep & Hsv & Hld). simpl in *.
  split; [by split_and!|]. split; [done|].
  split; [exists tl, vl; by rewrite Ht1, Hv1|].
  split; [done|].
  split; [rewrite Hd5, Hd4, dirs_log; congruence|].
  split; [done|].
  intros Hsave. rewrite Hsave in Hsv. specialize (Hf2 Hsv).
  destruct (Hf4 Hsv) as [_ Hf4']. rewrite Hdir in *. rewrite Ht1, Hv1.
  assert (∀ p, p ≠ path_join (experiment_dir self) "all.log" →
               p ≠ path_join (experiment_dir self) "epoch.log" →
               files (log self2 s (Some "epoch.log") w2) !! p = files w2 !! p) as Hlog.
  { intros p H1 H2. apply lookup_log; simpl; rewrite Hdir; [done|]. by intros name [= <-]. }
  rewrite !Hf5 by (by apply path_join_ne). rewrite Hf4'.
  split_and!.
  - rewrite lookup_insert_ne by (by apply path_join_ne).
    rewrite Hlog by (by apply path_join_ne). rewrite Hf2, Ht1, Hv1.
    rewrite lookup_insert_ne by (by apply path_join_ne).
    by rewrite lookup_insert_eq.
  - rewrite lookup_insert_ne by (by apply path_join_ne).
    rewrite Hlog by (by apply path_join_ne). rewrite Hf2, Ht1, Hv1.
    by rewrite lookup_insert_eq.
  - by rewrite lookup_insert_eq.
Qed.

(** The loop of [run] over the epochs [es]. *)
Lemma run_loop_spec start (es : list Z) :
  ∀ self w self' w',
    for_each (run_epoch start) (self, w) es = Ok (self', w') →
    same_setup self self' ∧
    (∃ tls vls, length tls = length es ∧ length vls = length es ∧
                training_losses self' = (training_losses self ++ tls)%list ∧
                val_losses self' = (val_losses self ++ vls)%list) ∧
    Forall (fun e => test_due start e = false) es ∧
    dirs w' = dirs w ∧
    (∀ e, last es = Some e →
       current_epoch self' = e ∧
       (save self = true →
        files w' !! path_join (experiment_dir self) "training_losses.txt" =
          Some (Numbers (training_losses self')) ∧
        files w' !! path_join (experiment_dir self) "val_losses.txt" =
          Some (Numbers (val_losses self')) ∧
        files w' !! path_join (experiment_dir self) "latest_model.pt" =
          Some (Checkpoint (model self') (optimizer self')))).
Proof.
  induction es as [|e es IH] using rev_ind; intros self w self' w'.
  { cbn [for_each]. intros [= <- <-]. split; [apply same_setup_refl|].
    split; [exists [], []; by rewrite !app_nil_r|].
    split; [done|]. split; [done|]. intros e. done. }
  rewrite for_each_app.
  destruct (for_each (run_epoch start) (self, w) es) as [[self1 w1]|err] eqn:Hes; [|done].
  cbn [mbind result_bind for_each].
  destruct (run_epoch start (self1, w1) e) as [[self2 w2]|err] eqn:He; [|done].
  cbn [mbind result_bind]. intros [= <- <-].
  apply IH in Hes as (Hs1 & (tls & vls & Hlt & Hlv & Ht1 & Hv1) & Htest1 & Hd1 & _).
  apply run_epoch_spec in He
    as (Hs2 & Hce & (tl & vl & Ht2 & Hv2) & Htest2 & Hd2 & _ & Hfiles).
  split; [by eapply same_setup_trans|].
  split.
  { exists (tls ++ [tl])%list, (vls ++ [vl])%list. rewrite !length_app. simpl.
    rewrite Ht2, Hv2, Ht1, Hv1, <- !app_assoc. by rewrite Hlt, Hlv. }
  split; [apply Forall_app; split; [done|by apply Forall_singleton]|].
  split; [congruence|].
  intros e' Hlast. rewrite last_snoc in Hlast. injection Hlast as <-.
  split; [done|]. intros Hsave.
  destruct Hs1 as (_ & Hdir & _ & _ & _ & _ & Hsv & _).
  rewrite <- Hdir. apply Hfiles. congruence.
Qed.

(** The state after the first [k] epochs of the loop of [run]. *)
Lemma run_epochs_state (k : nat) self w self' w' :
  (1 ≤ k ≤ length (epoch_range self))%nat →
  run_epochs k self w = Ok (self', w') →
  (∃ tls vls, length tls = k ∧ length vls = k ∧
              training_losses self' = (training_losses self ++ tls)%list ∧
              val_losses self' = (val_losses self ++ vls)%list) ∧
  current_epoch self' = (current_epoch self + Z.of_nat k - 1)%Z ∧
  (save self = true →
   files w' !! path_join (experiment_dir self) "training_losses.txt" =
     Some (Numbers (training_losses self')) ∧
   files w' !! path_join (experiment_dir self) "val_losses.txt" =
     Some (Numbers (val_losses self')) ∧
   files w' !! path_join (experiment_dir self) "latest_model.pt" =
     Some (Checkpoint (model self') (optimizer self'))).
Proof.
  intros Hk Hrun. unfold run_epochs in Hrun.
  apply run_loop_spec in Hrun as (_ & (tls & vls & Hlt & Hlv & Ht & Hv) & _ & _ & Hlast).
  rewrite length_take in Hlt, Hlv.
  assert (last (take k (epoch_range self)) = Some (current_epoch self + Z.of_nat k - 1)%Z)
    as Hl.
  { rewrite last_lookup, length_take, Nat.min_l by lia.
    rewrite lookup_take_lt by lia. unfold epoch_range in *.
    rewrite length_seqZ in Hk. rewrite lookup_seqZ_lt by lia. f_equal. lia. }
  destruct (Hlast _ Hl) as [Hce Hfiles].
  split; [exists tls, vls; split_and!; try done; lia|]. by split.
Qed.

(** *** When an epoch goes through *)


(** The two passes of an epoch, over loaders that are not empty. *)
Lemma passes_ok self w epoch :
  train_loader self ≠ [] → val_loader self ≠ [] →
  (is_Some (example_img self) ∨
   ∃ b bs, train_loader self = b :: bs ∧ images b ≠ []) →
  ∃ self1 w1 tl vl,
    train (with_current_epoch self epoch) w epoch = Ok (self1, w1, tl) ∧
    val self1 epoch = Ok vl ∧
    same_setup self self1 ∧ current_epoch self1 = epoch ∧
    training_losses self1 = training_losses self ∧ val_losses self1 = val_losses self ∧
    dirs w1 = dirs w ∧ is_Some (example_img self1).
Proof.
  intros Htrain Hval Hex.
  destruct (train_ok (with_current_epoch self epoch) w epoch Htrain Hex)
    as (self1 & w1 & tl & Hrun & Hsome).
  pose proof (train_frame _ _ _ _ _ _ Hrun) as (Hs1 & Hce1 & Ht1 & Hv1 & Hd1 & _).
  pose proof Hs1 as (_ & _ & _ & Hvl1 & _).
  simpl in *. exists self1, w1, tl. eexists. split; [done|]. split.
  { unfold val. rewrite Hvl1.
    destruct (decide _) as [Hz|_]; [exfalso; apply Hval; by apply nil_length_inv|].
    reflexivity. }
  by split_and!.
Qed.

(** An epoch goes through when no test pass is due, the example
    caption can be generated, the loaders are not empty, there is an
    image to use as the example, both histories have the same length,
    at least the index of the epoch, and, with [save], the experiment
    directory exists. *)
Lemma run_epoch_ok start self w epoch :
  generate_example_caption self = Ok () → test_due start epoch = false →
  train_loader self ≠ [] → val_loader self ≠ [] →
  (is_Some (example_img self) ∨
   ∃ b bs, train_loader self = b :: bs ∧ images b ≠ []) →
  length (val_losses self) = length (training_losses self) →
  (0 ≤ epoch ≤ Z.of_nat (length (training_losses self)))%Z →
  (save self = false ∨ experiment_dir self ∈ dirs w) →
  ∃ self' w', run_epoch start (self, w) epoch = Ok (self', w').
Proof.
  intros Hgen Hdue Htrain Hval Hex Hlen Htl Hdir. unfold run_epoch, epoch_body.
  rewrite Hgen, Hdue. cbn [mbind result_bind].
  destruct (passes_ok self w epoch Htrain Hval Hex)
    as (self1 & w1 & tl & vl & Hpass & Hvalid & Hs1 & Hce1 & Ht1 & Hv1 & Hd1 & _).
  rewrite Hpass. cbn [mbind result_bind]. rewrite Hvalid. cbn [mbind result_bind].
  destruct (record_stats self1 w1 tl vl) as [self2 w2] eqn:Hrec.
  apply record_stats_spec in Hrec as (-> & _ & Hd2 & _).
  unfold log_epoch_stats. simpl. rewrite Hce1, Ht1, Hv1.
  destruct (lookup_lt_is_Some_2 (training_losses self ++ [tl]) (Z.to_nat epoch)) as [x Hx].
  { rewrite length_app. simpl. lia. }
  destruct (lookup_lt_is_Some_2 (val_losses self ++ [vl]) (Z.to_nat epoch)) as [y Hy].
  { rewrite length_app. simpl. lia. }
  rewrite (py_getitem_nonneg _ epoch x ltac:(lia) Hx). cbn [mbind result_bind].
  rewrite (py_getitem_nonneg _ epoch y ltac:(lia) Hy). cbn [mbind result_bind].
  destruct Hs1 as (_ & Hdir1 & _ & _ & _ & _ & Hsv1 & _).
  unfold save_model, torch_save, plot_stats. simpl.
  rewrite !length_app, Hlen. simpl. rewrite Hsv1, Hdir1.
  destruct (decide _) as [_|Hne]; [|done].
  destruct (save self) eqn:Hsave; simpl.
  - destruct Hdir as [?|Hdir]; [done|].
    rewrite bool_decide_eq_true_2 by (by rewrite dirs_log, Hd2, Hd1).
    cbn [mbind result_bind]. simpl.
    rewrite bool_decide_eq_true_2 by (by rewrite dirs_log, Hd2, Hd1).
    by eexists _, _.
  - by eexists _, _.
Qed.

Lemma run_loop_ok start (n : nat) :
  generates_examples →
  ∀ (first : Z) self w,
    (∀ e, (first ≤ e < first + Z.of_nat n)%Z → test_due start e = false) →
    train_loader self ≠ [] → val_loader self ≠ [] →
    (is_Some (example_img self) ∨
     ∃ b bs, train_loader self = b :: bs ∧ images b ≠ []) →
    length (val_losses self) = length (training_losses self) →
    (0 ≤ first ≤ Z.of_nat (length (training_losses self)))%Z →
    (save self = false ∨ experiment_dir self ∈ dirs w) →
    ∃ self' w', for_each (run_epoch start) (self, w) (seqZ first (Z.of_nat n)) = Ok (self', w').
Proof.
  intros Hgen. induction n as [|n IH]; intros first self w Hdue Htrain Hval Hex Hlen Htl Hdir.
  { exists self, w. by rewrite seqZ_nil. }
  rewrite seqZ_cons by lia. cbn [for_each].
  destruct (run_epoch_ok start self w first) as (self1 & w1 & Hrun); try done.
  { by apply generate_example_caption_ok. }
  { apply Hdue. lia. }
  rewrite Hrun. cbn [mbind result_bind].
  apply run_epoch_spec in Hrun
    as ((_ & Hd1 & Hl1 & Hl2 & _ & _ & Hsv & _) & _ & (tl & vl & Ht & Hv) & _ & Hdirs & Hsome & _).
  replace (Z.pred (Z.of_nat (S n))) with (Z.of_nat n) by lia.
  apply IH.
  - intros e He. apply Hdue. lia.
  - by rewrite Hl1.
  - by rewrite Hl2.
  - by left.
  - rewrite Ht, Hv, !length_app. simpl. lia.
  - rewrite Ht, length_app. simpl. lia.
  - rewrite Hsv, Hd1, Hdirs. done.
Qed.

(** [run] goes through every epoch of its range. *)
Lemma run_completes self w :
  generates_examples →
  (∀ e, (current_epoch self < e < epochs self)%Z → (e `mod` 10 ≠ 0)%Z) →
  train_loader self ≠ [] → val_loader self ≠ [] →
  (is_Some (example_img self) ∨
   ∃ b bs, train_loader self = b :: bs ∧ images b ≠ []) →
  length (val_losses self) = length (training_losses self) →
  (0 ≤ current_epoch self ≤ Z.of_nat (length (training_losses self)))%Z →
  (save self = false ∨ experiment_dir self ∈ dirs w) →
  ∃ self' w' tls vls,
    run self w = Ok (self', w') ∧
    training_losses self' = (training_losses self ++ tls)%list ∧
    val_losses self' = (val_losses self ++ vls)%list ∧
    length tls = Z.to_nat (epochs self - current_epoch self) ∧
    length vls = Z.to_nat (epochs self - current_epoch self).
Proof.
  intros Hgen Hdue Htrain Hval Hex Hlen Htl Hdir. unfold run.
  destruct (run_loop_ok (current_epoch self) (Z.to_nat (epochs self - current_epoch self))
              Hgen (current_epoch self) self w) as (self' & w' & Hloop); try done.
  { intros e He. unfold test_due.
    destruct (decide (e = current_epoch self)) as [->|Hne].
    - by rewrite Z.eqb_refl, andb_false_r.
    - assert (e `mod` 10 ≠ 0)%Z as Hmod by (apply Hdue; lia).
      apply Z.eqb_neq in Hmod. by rewrite Hmod. }
  assert (seqZ (current_epoch self) (Z.of_nat (Z.to_nat (epochs self - current_epoch self)))
          = epoch_range self) as Hrange.
  { unfold epoch_range.
    destruct (Z.le_gt_cases 0 (epochs self - current_epoch self)).
    - by rewrite Z2Nat.id.
    - rewrite !seqZ_nil; [done|lia|lia]. }
  rewrite Hrange in Hloop. rewrite Hloop. cbn [mbind result_bind].
  apply run_loop_spec in Hloop
    as ((_ & Hd1 & _ & _ & _ & _ & Hsv & _) & (tls & vls & Hlt & Hlv & Ht & Hv) & _ & Hdirs & _).
  assert (∃ w'', plot_stats self' true w' = Ok w'') as [w'' ->].
  { unfold plot_stats. rewrite Ht, Hv, !length_app, Hlen, Hlt, Hlv.
    destruct (decide _) as [_|Hne]; [|done].
    rewrite Hsv, Hd1. destruct (save self) eqn:Hsave; simpl; [|by eexists].
    destruct Hdir as [?|Hdir]; [done|].
    rewrite bool_decide_eq_true_2 by (by rewrite Hdirs). by eexists. }
  cbn [mbind result_bind].
  exists self', w'', tls, vls.
  unfold epoch_range in Hlt, Hlv. rewrite length_seqZ in Hlt, Hlv. by split_and!.
Qed.

(** *** Construction and resume *)

Lemma makedirs_existing (p : string) w : p ∈ dirs w → makedirs p true w = Ok w.
Proof. intros Hp. unfold makedirs. by rewrite bool_decide_eq_true_2. Qed.

Lemma makedirs_exist_ok_cases (p : string) w :
  (∃ w1, makedirs p true w = Ok w1 ∧ p ∈ dirs w1) ∨
  makedirs p true w = Raise FileExistsError.
Proof.
  unfold makedirs. case_bool_decide as Hin.
  - left. by exists w.
  - case_bool_decide; [by right|].
    left. eexists. split; [done|]. simpl. set_solver.
Qed.

Lemma makedirs_taken (p : string) w :
  p ∈ dirs w → makedirs p false w = Raise FileExistsError.
Proof. intros Hp. unfold makedirs. by rewrite bool_decide_eq_true_2. Qed.

(** Construction with [load] over a statistics directory that holds the
    two histories and a checkpoint. *)
Lemma init_load_spec (config : config_data) (train val test : list batch)
    (m : state_dict) (o : optim_dict) w (tl vl : list scalar)
    (m' : state_dict) (o' : optim_dict) :
  config_load config = true → ROOT_STATS_DIR ∈ dirs w →
  files w !! path_join ROOT_STATS_DIR "training_losses.txt" = Some (Numbers tl) →
  files w !! path_join ROOT_STATS_DIR "val_losses.txt" = Some (Numbers vl) →
  files w !! path_join ROOT_STATS_DIR "latest_model.pt" = Some (Checkpoint m' o') →
  ∃ self, init (Some config) train val test m o w = Ok (self, w) ∧
          training_losses self = tl ∧ val_losses self = vl ∧
          current_epoch self = Z.of_nat (length tl) ∧
          model self = m' ∧ optimizer self = o' ∧
          train_loader self = train ∧ val_loader self = val ∧
          epochs self = num_epochs config ∧ example_img self = None ∧
          save self = config_save config ∧ experiment_dir self = ROOT_STATS_DIR.
Proof.
  intros Hcfg Hroot Ht Hv Hc.
  unfold init. simpl. rewrite Hcfg. unfold load_experiment. simpl.
  rewrite makedirs_existing by done. cbn [mbind result_bind].
  unfold path_exists. rewrite bool_decide_eq_true_2 by done. simpl.
  unfold read_file_in_dir. rewrite Ht, Hv. cbn [mbind result_bind].
  unfold torch_load. simpl. rewrite Hc. cbn [mbind result_bind].
  eexists. by split_and!.
Qed.

End experiment_facts.

(** ** The epoch loop *)

Section run_facts.
Import experiment.
Context `{Env : ExperimentEnv}.
Implicit Types (self : Experiment) (w : world).

(** The test pass never returns (without a batch to test it ends with
    a ZeroDivisionError), so that [run] returns only when its range
    holds no epoch at which the test pass is due: no multiple of 10
    after the epoch it starts from. *)
Theorem run_reaches_no_test self w :
  (∀ w', test self w ≠ Ok w') ∧
  (test_loader self = [] → test self w = Raise ZeroDivisionError) ∧
  (∀ self' w', run self w = Ok (self', w') →
     ∀ e, (current_epoch self < e < epochs self)%Z → (e `mod` 10 ≠ 0)%Z).
Proof.
  split; [intros w'; apply test_raises|]. split; [apply test_empty|].
  intros self' w' Hrun e He Hmod. unfold run in Hrun.
  destruct (for_each _ _ _) as [[self1 w1]|err] eqn:Hloop; [|done].
  apply run_loop_spec in Hloop as (_ & _ & Hdue & _).
  rewrite Forall_forall in Hdue. specialize (Hdue e).
  unfold epoch_range, test_due in Hdue. rewrite elem_of_seqZ in Hdue.
  rewrite Hmod in Hdue. destruct (Z.eqb_spec e (current_epoch self)); [lia|].
  simpl in Hdue. discriminate Hdue. lia.
Qed.

(** The first [k] epochs of [run], [k] at least 1: each history has [k]
    more entries after the ones it had, [current_epoch] is the index of
    the last of these epochs, and with [save] set the two history files
    and the checkpoint hold what is in memory. *)
Theorem run_epochs_bookkeeping (k : nat) self w self' w' :
  (1 ≤ k ≤ length (epoch_range self))%nat →
  run_epochs k self w = Ok (self', w') →
  (∃ tls vls, length tls = k ∧ length vls = k ∧
              training_losses self' = (training_losses self ++ tls)%list ∧
              val_losses self' = (val_losses self ++ vls)%list) ∧
  current_epoch self' = (current_epoch self + Z.of_nat k - 1)%Z ∧
  (save self = true →
   files w' !! path_join (experiment_dir self) "training_losses.txt" =
     Some (Numbers (training_losses self')) ∧
   files w' !! path_join (experiment_dir self) "val_losses.txt" =
     Some (Numbers (val_losses self')) ∧
   files w' !! path_join (experiment_dir self) "latest_model.pt" =
     Some (Checkpoint (model self') (optimizer self'))).
Proof. apply run_epochs_state. Qed.

(** C7, amended.  In an experiment whose [current_epoch] is the number
    of entries of both histories, as construction leaves it with or
    without [load], the first [k] epochs of [run] leave [current_epoch]
    at the index of the last of them, one less than the number of
    epochs completed, which is the length of both histories, in memory
    and, with [save], on disk. *)
Theorem current_epoch_is_last_index (k : nat) self w self' w' :
  current_epoch self = Z.of_nat (length (training_losses self)) →
  length (val_losses self) = length (training_losses self) →
  (1 ≤ k ≤ length (epoch_range self))%nat →
  run_epochs k self w = Ok (self', w') →
  length (training_losses self') = (length (training_losses self) + k)%nat ∧
  length (val_losses self') = (length (training_losses self) + k)%nat ∧
  current_epoch self' = (Z.of_nat (length (training_losses self')) - 1)%Z ∧
  (save self = true →
   files w' !! path_join (experiment_dir self) "training_losses.txt" =
     Some (Numbers (training_losses self')) ∧
   files w' !! path_join (experiment_dir self) "val_losses.txt" =
     Some (Numbers (val_losses self'))).
Proof.
  intros Hce Hlen Hk Hrun.
  destruct (run_epochs_state k self w self' w' Hk Hrun)
    as ((tls & vls & Hlt & Hlv & Ht & Hv) & Hce' & Hfiles).
  rewrite Ht, Hv, !length_app, Hlt, Hlv, Hlen.
  split; [done|]. split; [done|]. split; [lia|].
  intros Hsave. destruct (Hfiles Hsave) as (Hft & Hfv & _).
  rewrite Ht in Hft. rewrite Hv in Hfv. done.
Qed.



(** [run] does not fail when the model generates the example caption,
    no multiple of 10 lies after the start epoch within the range, the
    loaders are not empty, there is an image to record as the example,
    both histories have the same length, at least [current_epoch], and,
    with [save], the experiment directory exists.  It then leaves each
    history with exactly [epochs - current_epoch] more entries after
    the ones it had. *)
Theorem run_ok self w :
  generates_examples →
  (∀ e, (current_epoch self < e < epochs self)%Z → (e `mod` 10 ≠ 0)%Z) →
  train_loader self ≠ [] → val_loader self ≠ [] →
  (is_Some (example_img self) ∨
   ∃ b bs, train_loader self = b :: bs ∧ images b ≠ []) →
  length (val_losses self) = length (training_losses self) →
  (0 ≤ current_epoch self ≤ Z.of_nat (length (training_losses self)))%Z →
  (save self = false ∨ experiment_dir self ∈ dirs w) →
  ∃ self' w' tls vls,
    run self w = Ok (self', w') ∧
    training_losses self' = (training_losses self ++ tls)%list ∧
    val_losses self' = (val_losses self ++ vls)%list ∧
    length tls = Z.to_nat (epochs self - current_epoch self) ∧
    length vls = Z.to_nat (epochs self - current_epoch self).
Proof. apply run_completes. Qed.

End run_facts.

(** A fresh run of three epochs returns: none of them is a test
    epoch. *)
Lemma run_reaches_no_test_witness :
  match @experiment.run toy_env (toy_experiment 3 false [[1%Z]]) toy_world with
  | Ok (self', w') => ∀ e, (0 < e < 3)%Z → (e `mod` 10 ≠ 0)%Z
  | Raise _ => False
  end.
Proof.
  destruct (@experiment.run toy_env (toy_experiment 3 false [[1%Z]]) toy_world)
    as [[self' w']|err] eqn:Hrun.
  - exact (proj2 (proj2 (@run_reaches_no_test toy_env (toy_experiment 3 false [[1%Z]])
                           toy_world)) self' w' Hrun).
  - vm_compute in Hrun. discriminate Hrun.
Defined.

(** The bookkeeping after the first two epochs of a fresh run. *)
Lemma run_epochs_bookkeeping_witness :
  match @experiment.run_epochs toy_env 2 (toy_experiment 3 false [[1%Z]]) toy_world with
  | Ok (self', w') =>
      experiment.current_epoch self' = 1%Z ∧
      ∃ tls vls, length tls = 2%nat ∧ length vls = 2%nat ∧
                 experiment.training_losses self' = tls ∧
                 experiment.val_losses self' = vls
  | Raise _ => False
  end.
Proof.
  destruct (@experiment.run_epochs toy_env 2 (toy_experiment 3 false [[1%Z]]) toy_world)
    as [[self' w']|err] eqn:Hrun.
  - destruct (@run_epochs_bookkeeping toy_env 2 (toy_experiment 3 false [[1%Z]]) toy_world
                self' w' ltac:(vm_compute; lia) Hrun) as (Hhist & Hce & _).
    split; [exact Hce|exact Hhist].
  - vm_compute in Hrun. discriminate Hrun.
Defined.

(** C7, as stated, fails: after the one epoch of a fresh run, one
    epoch is completed and both histories have one entry, and
    [current_epoch] is 0. *)
Lemma current_epoch_counterexample :
  ∃ self' w',
    @experiment.run toy_env (toy_experiment 1 false [[1%Z]]) toy_world = Ok (self', w') ∧
    length (experiment.training_losses self') = 1%nat ∧
    length (experiment.val_losses self') = 1%nat ∧
    experiment.current_epoch self' = 0%Z ∧
    experiment.current_epoch self' ≠ Z.of_nat (length (experiment.training_losses self')).
Proof.
  eexists _, _. split; [vm_compute; reflexivity|]. simpl. split_and!; done.
Qed.

(** The amended claim after two epochs of a fresh run. *)
Lemma current_epoch_is_last_index_witness :
  match @experiment.run_epochs toy_env 2 (toy_experiment 3 false [[1%Z]]) toy_world with
  | Ok (self', w') =>
      length (experiment.training_losses self') = 2%nat ∧
      length (experiment.val_losses self') = 2%nat ∧
      experiment.current_epoch self' =
        (Z.of_nat (length (experiment.training_losses self')) - 1)%Z
  | Raise _ => False
  end.
Proof.
  destruct (@experiment.run_epochs toy_env 2 (toy_experiment 3 false [[1%Z]]) toy_world)
    as [[self' w']|err] eqn:Hrun.
  - destruct (@current_epoch_is_last_index toy_env 2 (toy_experiment 3 false [[1%Z]])
                toy_world self' w' eq_refl eq_refl ltac:(vm_compute; lia) Hrun)
      as (Ht & Hv & Hce & _).
    split; [exact Ht|]. split; [exact Hv|exact Hce].
  - vm_compute in Hrun. discriminate Hrun.
Defined.




(** The toy model generates a caption for every image. *)
Lemma toy_generates_examples : @experiment.generates_examples toy_env.
Proof. intros m img. by eexists _, _. Qed.

(** A fresh run of three epochs. *)
Lemma run_ok_witness :
  ∃ self' w' tls vls,
    @experiment.run toy_env (toy_experiment 3 false [[1%Z]]) toy_world = Ok (self', w') ∧
    experiment.training_losses self' = tls ∧
    experiment.val_losses self' = vls ∧
    length tls = 3%nat ∧ length vls = 3%nat.
Proof.
  destruct (@run_ok toy_env (toy_experiment 3 false [[1%Z]]) toy_world)
    as (self' & w' & tls & vls & Hrun & Ht & Hv & Hlt & Hlv).
  - exact toy_generates_examples.
  - simpl. intros e He Hmod. assert (e = 1 ∨ e = 2)%Z as [-> | ->] by lia; discriminate Hmod.
  - discriminate.
  - discriminate.
  - right. eexists _, _. split; [reflexivity|discriminate].
  - reflexivity.
  - simpl. lia.
  - by left.
  - exists self', w', tls, vls. simpl in Ht, Hv. by split_and!.
Defined.

(** ** Construction, resume and the empty loaders *)

Section resume_facts.
Import experiment.
Context `{Env : ExperimentEnv}.
Implicit Types (self : Experiment) (w : world).

(** Without [load], construction leaves the directories and files as
    they are, and [__load_experiment] itself, whose last branch is there
    to create the directory, cannot return: the directory it would
    create is the one it has just made sure exists. *)
Theorem load_experiment_without_load (config : config_data) (train val test : list batch)
    (m : state_dict) (o : optim_dict) self w :
  config_load config = false →
  experiment_dir self = ROOT_STATS_DIR → load self = false →
  (∃ self', init (Some config) train val test m o w = Ok (self', w) ∧
            current_epoch self' = 0%Z ∧ training_losses self' = [] ∧ val_losses self' = []) ∧
  load_experiment self w = Raise FileExistsError.
Proof.
  intros Hcfg Hdir Hload. split.
  { unfold init. simpl. rewrite Hcfg. eexists. by split_and!. }
  unfold load_experiment.
  destruct (makedirs_exist_ok_cases ROOT_STATS_DIR w) as [(w1 & -> & Hin)| ->]; [|done].
  cbn [mbind result_bind]. rewrite Hload, andb_false_r, Hdir.
  by rewrite makedirs_taken.
Qed.

(** C5.  A construction that does not resume creates no persistence
    location: it leaves the directories and the files as they are, and
    when the statistics directory is not there and [save] is set, the
    checkpoint of the first epoch cannot be written. *)
Theorem fresh_start_creates_nothing (config : config_data) (train val test : list batch)
    (m : state_dict) (o : optim_dict) w :
  config_load config = false → ROOT_STATS_DIR ∉ dirs w →
  ∃ self,
    init (Some config) train val test m o w = Ok (self, w) ∧
    experiment_dir self = ROOT_STATS_DIR ∧ save self = config_save config ∧
    (config_save config = true →
     ∀ self' w', experiment_dir self' = experiment_dir self → save self' = save self →
                 dirs w' = dirs w → save_model self' w' = Raise RuntimeError).
Proof.
  intros Hcfg Hroot. unfold init. simpl. rewrite Hcfg. eexists. split; [done|]. simpl.
  split; [done|]. split; [done|].
  intros Hsave self' w' Hdir Hsv Hdirs. unfold save_model, torch_save.
  rewrite Hsv, Hsave, Hdir, bool_decide_eq_false_2; [done|]. by rewrite Hdirs.
Qed.

(** What an epoch saved is what a later construction with [load] reads
    back: both histories, the model and the optimizer, with
    [current_epoch] set to the length of the training history. *)
Theorem resume_restores_saved_epoch start self w epoch self' w'
    (config : config_data) (train val test : list batch) (m : state_dict) (o : optim_dict) :
  save self = true → experiment_dir self = ROOT_STATS_DIR →
  ROOT_STATS_DIR ∈ dirs w →
  run_epoch start (self, w) epoch = Ok (self', w') →
  config_load config = true →
  ∃ self1,
    init (Some config) train val test m o w' = Ok (self1, w') ∧
    training_losses self1 = training_losses self' ∧
    val_losses self1 = val_losses self' ∧
    current_epoch self1 = Z.of_nat (length (training_losses self')) ∧
    model self1 = model self' ∧ optimizer self1 = optimizer self'.
Proof.
  intros Hsave Hdir Hroot Hrun Hcfg.
  apply run_epoch_spec in Hrun as (_ & _ & _ & _ & Hdirs & _ & Hfiles).
  destruct (Hfiles Hsave) as (Ht & Hv & Hc). rewrite Hdir in Ht, Hv, Hc.
  unfold init. simpl. rewrite Hcfg. unfold load_experiment. simpl.
  rewrite makedirs_existing by (by rewrite Hdirs). cbn [mbind result_bind].
  unfold path_exists. rewrite bool_decide_eq_true_2 by (by rewrite Hdirs). simpl.
  unfold read_file_in_dir. rewrite Ht, Hv. cbn [mbind result_bind].
  unfold torch_load. simpl. rewrite Hc. cbn [mbind result_bind].
  eexists. by split_and!.
Qed.

(** A construction with [load] that finds both histories but no
    checkpoint file fails with FileNotFoundError. *)
Theorem resume_without_checkpoint self w (tl vl : list scalar) :
  load self = true → experiment_dir self = ROOT_STATS_DIR →
  ROOT_STATS_DIR ∈ dirs w →
  files w !! path_join ROOT_STATS_DIR "training_losses.txt" = Some (Numbers tl) →
  files w !! path_join ROOT_STATS_DIR "val_losses.txt" = Some (Numbers vl) →
  files w !! path_join ROOT_STATS_DIR "latest_model.pt" = None →
  load_experiment self w = Raise FileNotFoundError.
Proof.
  intros Hload Hdir Hroot Ht Hv Hc. unfold load_experiment.
  rewrite makedirs_existing by done. cbn [mbind result_bind].
  unfold path_exists. rewrite Hdir, bool_decide_eq_true_2 by done. simpl.
  rewrite Hload. unfold read_file_in_dir. rewrite Ht, Hv. cbn [mbind result_bind].
  unfold torch_load. simpl. rewrite Hdir, Hc. done.
Qed.

(** A loader without batches makes the mean a division by zero: [run]
    with an epoch to do and an empty training loader fails with
    ZeroDivisionError, and so does an epoch without a test pass whose
    training goes through and whose validation loader is empty, the
    example caption being generated in both cases. *)
Theorem empty_loader_fails self w :
  (train_loader self = [] → (current_epoch self < epochs self)%Z →
   generate_example_caption self = Ok () →
   run self w = Raise ZeroDivisionError) ∧
  (∀ start epoch, val_loader self = [] → train_loader self ≠ [] →
     (is_Some (example_img self) ∨
      ∃ b bs, train_loader self = b :: bs ∧ images b ≠ []) →
     generate_example_caption self = Ok () → test_due start epoch = false →
     run_epoch start (self, w) epoch = Raise ZeroDivisionError).
Proof.
  split.
  - intros Hempty Hlt Hgen. unfold run, epoch_range. rewrite seqZ_cons by lia.
    cbn [for_each].
    assert (run_epoch (current_epoch self) (self, w) (current_epoch self) =
            Raise ZeroDivisionError) as ->; [|done].
    unfold run_epoch, epoch_body, test_due.
    rewrite Hgen, Z.eqb_refl, andb_false_r. cbn [mbind result_bind].
    by rewrite train_empty.
  - intros start epoch Hempty Htrain Hex Hgen Hdue. unfold run_epoch, epoch_body.
    rewrite Hgen, Hdue. cbn [mbind result_bind].
    destruct (train_ok (with_current_epoch self epoch) w epoch Htrain Hex)
      as (self1 & w1 & tl & Hrun & _).
    rewrite Hrun. cbn [mbind result_bind].
    apply train_frame in Hrun as ((_ & _ & _ & Hvl1 & _) & _).
    simpl in Hvl1. unfold val. rewrite Hvl1, Hempty. done.
Qed.

(** A run that saves is stopped after [k] epochs and a new experiment is
    constructed with [load] over what it left on disk: the new
    experiment starts from the saved histories, and its [run] goes
    through the remaining [num_epochs - k] epochs, appending that many
    entries to each history after the [k] saved ones, when the model
    generates the example caption and no multiple of 10 lies after
    epoch [k] among the remaining epochs. *)
Theorem resume_completes_run (k : nat) self w self1 w1
    (config : config_data) (train val test : list batch) (m : state_dict) (o : optim_dict) :
  save self = true → experiment_dir self = ROOT_STATS_DIR →
  ROOT_STATS_DIR ∈ dirs w →
  training_losses self = [] → val_losses self = [] → current_epoch self = 0%Z →
  (1 ≤ k ≤ length (epoch_range self))%nat →
  run_epochs k self w = Ok (self1, w1) →
  config_load config = true →
  generates_examples →
  (∀ e, (Z.of_nat k < e < num_epochs config)%Z → (e `mod` 10 ≠ 0)%Z) →
  train ≠ [] → val ≠ [] → (∃ b bs, train = b :: bs ∧ images b ≠ []) →
  ∃ self2 self3 w3 tls vls,
    init (Some config) train val test m o w1 = Ok (self2, w1) ∧
    current_epoch self2 = Z.of_nat k ∧
    run self2 w1 = Ok (self3, w3) ∧
    training_losses self3 = (training_losses self1 ++ tls)%list ∧
    val_losses self3 = (val_losses self1 ++ vls)%list ∧
    length (training_losses self1) = k ∧ length (val_losses self1) = k ∧
    length tls = Z.to_nat (num_epochs config - Z.of_nat k) ∧
    length vls = Z.to_nat (num_epochs config - Z.of_nat k).
Proof.
  intros Hsave Hdir Hroot Ht0 Hv0 Hce0 Hk Hrun Hcfg Hgen Hdue Htrain Hval Hfirst.
  pose proof Hrun as Hrun'. unfold run_epochs in Hrun'.
  apply run_loop_spec in Hrun' as (_ & _ & _ & Hdirs & _).
  destruct (run_epochs_state k self w self1 w1 Hk Hrun)
    as ((tls1 & vls1 & Hl1 & Hl2 & Ht1 & Hv1) & _ & Hfiles).
  destruct (Hfiles Hsave) as (Hft & Hfv & Hfc). rewrite Hdir in Hft, Hfv, Hfc.
  destruct (init_load_spec config train val test m o w1 _ _ _ _ Hcfg
              ltac:(by rewrite Hdirs) Hft Hfv Hfc)
    as (self2 & Hinit & Ht2 & Hv2 & Hce2 & _ & _ & Htr2 & Hva2 & Hep2 & Hex2 & _ & Hdir2).
  rewrite Ht0 in Ht1. rewrite Hv0 in Hv1. simpl in Ht1, Hv1.
  assert (length (training_losses self1) = k) as Hlen1 by (by rewrite Ht1).
  assert (length (val_losses self1) = k) as Hlen2 by (by rewrite Hv1).
  destruct (run_completes self2 w1) as (self3 & w3 & tls & vls & Hrun3 & Ht3 & Hv3 & Hlt & Hlv).
  - done.
  - rewrite Hce2, Hlen1, Hep2. done.
  - by rewrite Htr2.
  - by rewrite Hva2.
  - right. by rewrite Htr2.
  - rewrite Ht2, Hv2. lia.
  - rewrite Hce2, Ht2. lia.
  - right. by rewrite Hdir2, Hdirs.
  - exists self2, self3, w3, tls, vls.
    rewrite Ht2 in Ht3. rewrite Hv2 in Hv3.
    rewrite Hep2, Hce2, Hlen1 in Hlt. rewrite Hep2, Hce2, Hlen1 in Hlv.
    rewrite Hlen1 in Hce2. by split_and!.
Qed.

End resume_facts.

(** Construction without [load] in an empty world. *)
Lemma load_experiment_without_load_witness :
  (∃ self', @experiment.init toy_env (Some (toy_config_data 2 true false))
              [toy_batch [1%Z]] [toy_batch [7%Z]] [toy_batch [8%Z]] 0%Z 0%Z toy_world =
              Ok (self', toy_world) ∧
            experiment.current_epoch self' = 0%Z ∧
            experiment.training_losses self' = [] ∧ experiment.val_losses self' = []) ∧
  @experiment.load_experiment toy_env (toy_experiment 2 true [[1%Z]]) toy_world =
    Raise FileExistsError.
Proof.
  apply (@load_experiment_without_load toy_env (toy_config_data 2 true false));
    reflexivity.
Defined.

(** A fresh start that is to save, in an empty world. *)
Lemma fresh_start_creates_nothing_witness :
  ∃ self,
    @experiment.init toy_env (Some (toy_config_data 2 true false))
      [toy_batch [1%Z]] [toy_batch [7%Z]] [toy_batch [8%Z]] 0%Z 0%Z toy_world =
      Ok (self, toy_world) ∧
    @experiment.save_model toy_env self toy_world = Raise RuntimeError.
Proof.
  destruct (@fresh_start_creates_nothing toy_env (toy_config_data 2 true false)
              [toy_batch [1%Z]] [toy_batch [7%Z]] [toy_batch [8%Z]] 0%Z 0%Z toy_world)
    as (self & Hinit & _ & _ & Hsave).
  - reflexivity.
  - apply not_elem_of_empty.
  - exists self. split; [exact Hinit|]. apply Hsave; reflexivity.
Defined.

(** One saved epoch of a fresh experiment, read back. *)
Lemma resume_restores_saved_epoch_witness :
  ∃ self' w' self1,
    @experiment.run_epoch toy_env 0 (toy_experiment 2 true [[1%Z]], toy_world_dir) 0 =
      Ok (self', w') ∧
    @experiment.init toy_env (Some (toy_config_data 2 true true))
      [toy_batch [1%Z]] [toy_batch [7%Z]] [toy_batch [8%Z]] 0%Z 0%Z w' = Ok (self1, w') ∧
    experiment.training_losses self1 = experiment.training_losses self' ∧
    experiment.val_losses self1 = experiment.val_losses self' ∧
    experiment.current_epoch self1 =
      Z.of_nat (length (experiment.training_losses self')) ∧
    experiment.model self1 = experiment.model self' ∧
    experiment.optimizer self1 = experiment.optimizer self'.
Proof.
  destruct (@run_epoch_ok toy_env 0 (toy_experiment 2 true [[1%Z]]) toy_world_dir 0)
    as (self' & w' & Hrun).
  - reflexivity.
  - reflexivity.
  - discriminate.
  - discriminate.
  - right. eexists _, _. split; [reflexivity|discriminate].
  - reflexivity.
  - simpl. lia.
  - right. apply elem_of_singleton. reflexivity.
  - destruct (@resume_restores_saved_epoch toy_env 0 (toy_experiment 2 true [[1%Z]])
                toy_world_dir 0 self' w'
                (toy_config_data 2 true true) [toy_batch [1%Z]] [toy_batch [7%Z]]
                [toy_batch [8%Z]] 0%Z 0%Z
                eq_refl eq_refl ltac:(apply elem_of_singleton; reflexivity) Hrun eq_refl)
      as (self1 & Hinit & Hrest).
    exists self', w', self1. split; [exact Hrun|]. split; [exact Hinit|exact Hrest].
Defined.

(** A resume that finds the histories and no checkpoint. *)
Lemma resume_without_checkpoint_witness :
  @experiment.load_experiment toy_env
    (experiment.with_current_epoch (toy_experiment_load 2) 0) toy_world_stats =
    Raise FileNotFoundError.
Proof.
  apply (@resume_without_checkpoint toy_env _ toy_world_stats
           [QArith_base.inject_Z 1] [QArith_base.inject_Z 1]).
  - reflexivity.
  - reflexivity.
  - apply elem_of_singleton. reflexivity.
  - vm_compute. reflexivity.
  - vm_compute. reflexivity.
  - vm_compute. reflexivity.
Defined.

(** An experiment without training batches and three epochs to do. *)
Lemma empty_loader_fails_witness :
  @experiment.run toy_env (toy_experiment 3 false []) toy_world = Raise ZeroDivisionError.
Proof.
  apply (@empty_loader_fails toy_env (toy_experiment 3 false []) toy_world).
  - reflexivity.
  - simpl. lia.
  - reflexivity.
Defined.

(** A fresh run of five epochs that saves, stopped after two of them
    and resumed. *)
Lemma resume_completes_run_witness :
  ∃ self1 w1 self2 self3 w3 tls vls,
    @experiment.run_epochs toy_env 2 (toy_experiment 5 true [[1%Z]]) toy_world_dir =
      Ok (self1, w1) ∧
    @experiment.init toy_env (Some (toy_config_data 5 true true))
      [toy_batch [1%Z]] [toy_batch [7%Z]] [toy_batch [8%Z]] 0%Z 0%Z w1 = Ok (self2, w1) ∧
    experiment.current_epoch self2 = 2%Z ∧
    @experiment.run toy_env self2 w1 = Ok (self3, w3) ∧
    experiment.training_losses self3 = (experiment.training_losses self1 ++ tls)%list ∧
    experiment.val_losses self3 = (experiment.val_losses self1 ++ vls)%list ∧
    length tls = 3%nat ∧ length vls = 3%nat.
Proof.
  destruct (@run_loop_ok toy_env 0 2 toy_generates_examples 0
              (toy_experiment 5 true [[1%Z]]) toy_world_dir) as (self1 & w1 & Hrun).
  - intros e He. assert (e = 0 ∨ e = 1)%Z as [-> | ->] by lia; reflexivity.
  - discriminate.
  - discriminate.
  - right. eexists _, _. split; [reflexivity|discriminate].
  - reflexivity.
  - simpl. lia.
  - right. apply elem_of_singleton. reflexivity.
  - destruct (@resume_completes_run toy_env 2 (toy_experiment 5 true [[1%Z]]) toy_world_dir
                self1 w1 (toy_config_data 5 true true)
                [toy_batch [1%Z]] [toy_batch [7%Z]] [toy_batch [8%Z]] 0%Z 0%Z)
      as (self2 & self3 & w3 & tls & vls & Hinit & Hce & Hrun3 & Ht & Hv & _ & _ & Hlt & Hlv).
    + reflexivity.
    + reflexivity.
    + apply elem_of_singleton. reflexivity.
    + reflexivity.
    + reflexivity.
    + reflexivity.
    + vm_compute. lia.
    + exact Hrun.
    + reflexivity.
    + exact toy_generates_examples.
    + simpl. intros e He Hmod.
      assert (e = 3 ∨ e = 4)%Z as [-> | ->] by lia; discriminate Hmod.
    + discriminate.
    + discriminate.
    + eexists _, _. split; [reflexivity|discriminate].
    + exists self1, w1, self2, self3, w3, tls, vls.
      split; [exact Hrun|]. by split_and!.
Defined.

(** ** The training pass *)

Section epoch_loss.
Import experiment.
Context `{Env : ExperimentEnv}.
Implicit Types (self : Experiment) (w : world).

(** The loss that [__train] returns is the sum, in the order of the
    loader, of the losses of the batches divided by the number of
    batches, the loss of a batch being measured before the optimizer
    step on that batch; the model and the optimizer end as the steps
    leave them. *)
Theorem train_returns_mean_loss self w epoch self' w' loss :
  train self w epoch = Ok (self', w', loss) →
  loss = scalar_div
           (foldl scalar_add scalar_zero
                  (train_trajectory (model self) (optimizer self) (train_loader self)).1.1)
           (Z.of_nat (length (train_loader self))) ∧
  length (train_trajectory (model self) (optimizer self) (train_loader self)).1.1 =
    length (train_loader self) ∧
  model self' = (train_trajectory (model self) (optimizer self) (train_loader self)).1.2 ∧
  optimizer self' = (train_trajectory (model self) (optimizer self) (train_loader self)).2.
Proof.
  unfold train.
  destruct (for_each train_batch _ _) as [[[self1 w1] acc1]|e] eqn:Hloop; [|done].
  cbn [mbind result_bind]. destruct (decide _); [done|]. intros [= <- <- <-].
  pose proof (train_loop_frame _ _ _ _ _ _ _ Hloop) as ((_ & _ & Hl & _) & _).
  apply train_loop_numbers in Hloop as (-> & Hm & Ho). rewrite Hl.
  split_and!; try done. apply train_trajectory_length.
Qed.


End epoch_loss.

(** A pass over two batches, of one image and of two: the mean of the
    losses 1 and 2 is 3/2. *)
Lemma train_returns_mean_loss_witness :
  ∃ self' w' loss,
    @experiment.train toy_env (toy_experiment 1 false [[1%Z]; [2; 3]%Z]) toy_world 0 =
      Ok (self', w', loss) ∧
    loss = QArith_base.Qmake 3 2 ∧ experiment.model self' = 2%Z.
Proof.
  destruct (@train_ok toy_env (toy_experiment 1 false [[1%Z]; [2; 3]%Z]) toy_world 0)
    as (self' & w' & loss & Htrain & _).
  - discriminate.
  - right. eexists _, _. split; [reflexivity|discriminate].
  - destruct (@train_returns_mean_loss toy_env _ _ _ _ _ _ Htrain) as (Hloss & _ & Hm & _).
    exists self', w', loss. split; [exact Htrain|]. split; [exact Hloss|exact Hm].
Defined.



(** ** The orchestrator on the decoder of [lstm_model.py] *)

Section lstm_experiment.
Import experiment.
Context `{M : LSTMModel} `{Env : ExperimentEnv}.

(** When the model of the experiment generates as [LSTMModel.generate]
    does, with a [max_length] that is not negative, the example caption
    stops the run: an epoch that starts with an example image on record
    ends with the RuntimeError of [generate] before anything else, and
    since the first epoch puts an image on record, a run with two or
    more epochs to do never returns. *)
Theorem lstm_generate_stops_run (config : GenerationConfig float)
    (to_image : picture → image) :
  (0 ≤ max_length config)%Z →
  (∀ m imgs, ∃ g, model_generate m imgs = generate (map to_image imgs) config g) →
  (∀ start self w epoch img,
     example_img self = Some img → run_epoch start (self, w) epoch = Raise RuntimeError) ∧
  (∀ self w r, (current_epoch self + 2 ≤ epochs self)%Z → run self w ≠ Ok r).
Proof.
  intros Hm Hgen.
  assert (∀ start self w epoch img,
            example_img self = Some img →
            run_epoch start (self, w) epoch = Raise RuntimeError) as Hepoch.
  { intros start self w epoch img Himg. unfold run_epoch, generate_example_caption.
    rewrite Himg. destruct (Hgen (model self) [img]) as [g ->].
    unfold generate. by rewrite generate_final_first. }
  split; [exact Hepoch|].
  intros self w r Htwo Hrun. unfold run, epoch_range in Hrun.
  rewrite seqZ_cons in Hrun by lia. rewrite seqZ_cons in Hrun by lia.
  cbn [for_each] in Hrun.
  destruct (run_epoch _ (self, w) _) as [[self1 w1]|e] eqn:Hfirst; [|done].
  cbn [mbind result_bind] in Hrun.
  apply run_epoch_spec in Hfirst as (_ & _ & _ & _ & _ & [img Himg] & _).
  by rewrite (Hepoch _ self1 w1 _ img Himg) in Hrun.
Qed.

End lstm_experiment.

(** The second epoch of an experiment whose model is the toy
    [LSTMModel]. *)
Lemma lstm_generate_stops_run_witness :
  @experiment.run_epoch toy_lstm_env 0 (toy_lstm_experiment 3, @experiment.Build_world
                                          toy_lstm_env ∅ ∅ []) 1 =
    Raise RuntimeError.
Proof.
  apply (proj1 (@lstm_generate_stops_run toy toy_lstm_env (toy_config 5 true) (fun x => x)
                  ltac:(simpl; lia)
                  (fun m imgs => ex_intro _ 0%Z (f_equal (fun l => @generate toy l _ _)
                                                          (eq_sym (map_id imgs)))))
               0%Z (toy_lstm_experiment 3) _ 1%Z 1%Z).
  reflexivity.
Defined.

(** ** The model factory *)

(** [get_model] returns a model exactly when the configuration has a
    model section with the four keys it reads; the model is then built
    from these four values and the vocabulary, and from nothing else in
    the configuration. *)
Theorem get_model_needs_four_keys {Vocabulary model : Type}
    (build : py_value → py_value → Vocabulary → py_value → py_value → model)
    (config_data : gmap string (gmap string py_value)) (vocab : Vocabulary) :
  (is_Some (model_factory.get_model build config_data vocab) ↔
   ∃ sec, config_data !! "model" = Some sec ∧
          is_Some (sec !! "hidden_size") ∧ is_Some (sec !! "embedding_size") ∧
          is_Some (sec !! "model_type") ∧ is_Some (sec !! "num_layers")) ∧
  (∀ sec h e t n,
     config_data !! "model" = Some sec →
     sec !! "hidden_size" = Some h → sec !! "embedding_size" = Some e →
     sec !! "model_type" = Some t → sec !! "num_layers" = Some n →
     model_factory.get_model build config_data vocab = Some (build h e vocab n t)).
Proof.
  unfold model_factory.get_model, model_factory.config_get. split.
  - split.
    + destruct (config_data !! "model") as [sec|]; cbn [mbind option_bind];
        [|by intros [? ?]].
      intros Hsome. exists sec. split; [done|].
      repeat match type of Hsome with
             | is_Some (?x ≫= _) =>
                 destruct x; cbn [mbind option_bind] in Hsome; [|by destruct Hsome]
             end.
      by split_and!.
    + intros (sec & Hsec & [h Hh] & [e He] & [t Ht] & [n Hn]).
      rewrite Hsec. cbn [mbind option_bind]. rewrite Hh, He, Ht, Hn.
      cbn [mbind option_bind]. by eexists.
  - intros sec h e t n Hsec Hh He Ht Hn.
    rewrite Hsec. cbn [mbind option_bind]. by rewrite Hh, He, Ht, Hn.
Qed.

(** The factory on a configuration with a complete model section. *)
Lemma get_model_needs_four_keys_witness :
  model_factory.get_model (fun h e (_ : unit) n t => (h, e, n, t)) toy_model_config () =
    Some (PyInt 512, PyInt 300, PyInt 2, PyStr "LSTM").
Proof.
  apply (proj2 (get_model_needs_four_keys
                  (fun h e (_ : unit) n t => (h, e, n, t)) toy_model_config ())
               toy_model_section); vm_compute; reflexivity.
Defined.
